(** * Verification of the repository scraper (src/support.py, src/scrap_repo.py)

    The Python code is embedded shallowly.  A Python [str] is a Rocq
    [string] whose characters are code points below 256; a Python [int] is
    a [Z]; a Python list is a [list].  Exceptions are values of [exn] and a
    method that mutates [self] returns the outcome together with the state
    it leaves behind, so that what an exception leaves in [self] can be
    stated.  The file system is a directory tree (what [os.walk] sees) and
    a read function (what [open(...).read()] sees). *)

From Stdlib Require Import List String Ascii ZArith NArith Bool Lia.
From Stdlib.Strings Require Byte.
Import ListNotations.

Local Open Scope string_scope.
Local Open Scope list_scope.
Local Open Scope Z_scope.

(* ================================================================= *)
(** ** Python [str] primitives used by the program *)

Module py_str.

(** [len(s)] *)
Definition len (s : string) : Z := Z.of_nat (String.length s).

(** [s[:i]] for [0 <= i]. *)
Fixpoint take (n : nat) (s : string) : string :=
  match n, s with
  | O, _ => ""
  | S _, "" => ""
  | S n', String a r => String a (take n' r)
  end.

(** [s[i:]] for [0 <= i]. *)
Fixpoint drop (n : nat) (s : string) : string :=
  match n, s with
  | O, _ => s
  | S _, "" => ""
  | S n', String _ r => drop n' r
  end.

(** [s[:i]] and [s[i:]] on the integers the program computes; a negative
    bound counts from the end, as Python slices do. *)
Definition slice_to (s : string) (i : Z) : string :=
  if i <? 0 then take (Z.to_nat (len s + i)) s else take (Z.to_nat i) s.

Definition slice_from (s : string) (i : Z) : string :=
  if i <? 0 then drop (Z.to_nat (len s + i)) s else drop (Z.to_nat i) s.

(** [s.rfind(c)] for a one-character [c]: the highest index holding [c],
    [-1] when there is none. *)
Fixpoint rfind (c : ascii) (s : string) : Z :=
  match s with
  | "" => -1
  | String a r =>
      let k := rfind c r in
      if 0 <=? k then 1 + k else if Ascii.eqb a c then 0 else -1
  end.

(** [s.startswith(p)] *)
Fixpoint startswith (p s : string) : bool :=
  match p, s with
  | "", _ => true
  | String _ _, "" => false
  | String a p', String b s' => Ascii.eqb a b && startswith p' s'
  end.

(** [s.endswith(c)] for a one-character [c]. *)
Fixpoint endswith_char (c : ascii) (s : string) : bool :=
  match s with
  | "" => false
  | String a "" => Ascii.eqb a c
  | String _ r => endswith_char c r
  end.

(** [sub in s]: substring containment. *)
Fixpoint contains (sub s : string) : bool :=
  startswith sub s ||
  match s with
  | "" => false
  | String _ r => contains sub r
  end.

(** [s == c * len(s)]: every character of [s] is [c]. *)
Fixpoint all_char (c : ascii) (s : string) : bool :=
  match s with
  | "" => true
  | String a r => Ascii.eqb a c && all_char c r
  end.

(** [s.lstrip(chars)] and [s.rstrip(chars)], the set of characters given
    as a predicate. *)
Fixpoint lstrip_by (ws : ascii -> bool) (s : string) : string :=
  match s with
  | "" => ""
  | String a r => if ws a then lstrip_by ws r else s
  end.

Fixpoint rstrip_by (ws : ascii -> bool) (s : string) : string :=
  match s with
  | "" => ""
  | String a r =>
      match rstrip_by ws r with
      | "" => if ws a then "" else String a ""
      | r' => String a r'
      end
  end.

(** [str.isspace] on one character, for code points below 256: TAB, LF, VT,
    FF, CR, FS, GS, RS, US, SPACE, NEL and NBSP. *)
Definition isspace (a : ascii) : bool :=
  let n := N.to_nat (N_of_ascii a) in
  ((9 <=? n) && (n <=? 13) || (28 <=? n) && (n <=? 32) ||
   (n =? 133) || (n =? 160))%nat.

(** [s.strip()] *)
Definition strip (s : string) : string := lstrip_by isspace (rstrip_by isspace s).

(** [s.split()]: the maximal runs of characters that are not whitespace. *)
Fixpoint split_ws_aux (cur : string) (s : string) : list string :=
  match s with
  | "" => if String.eqb cur "" then [] else [cur]
  | String a r =>
      if isspace a
      then (if String.eqb cur "" then split_ws_aux "" r else cur :: split_ws_aux "" r)
      else split_ws_aux (cur ++ String a "")%string r
  end.

Definition split (s : string) : list string := split_ws_aux "" s.

End py_str.

(** The line feed and the blank-line separator ["\n\n"]. *)
Definition LF : ascii := ascii_of_nat 10.
Definition blank_line : string := String LF (String LF "").

(* ================================================================= *)
(** ** [os.path] (POSIX flavour) *)

Module os_path.

Definition sep : ascii := "/"%char.
Definition extsep : ascii := "."%char.

(** [os.path.join(a, b)]:
    an absolute [b] replaces [a]; otherwise [b] is appended, after a
    separator unless [a] is empty or already ends with one. *)
Definition join (a b : string) : string :=
  if py_str.startswith (String sep "") b then b
  else if String.eqb a "" || py_str.endswith_char sep a then (a ++ b)%string
  else (a ++ String sep b)%string.

(** [os.path.dirname(p)]: everything before the last separator, with the
    trailing separators removed unless the head consists of separators
    only. *)
Definition dirname (p : string) : string :=
  let i := py_str.rfind sep p + 1 in
  let head := py_str.slice_to p i in
  if negb (String.eqb head "") && negb (py_str.all_char sep head)
  then py_str.rstrip_by (fun a => Ascii.eqb a sep) head
  else head.

(** The loop of [genericpath._splitext] that skips the leading dots of the
    file name: [n] is the number of positions left before [dotIndex];
    the result says whether a character other than the dot was met. *)
Fixpoint has_non_dot (p : string) (filenameIndex : Z) (n : nat) : bool :=
  match n with
  | O => false
  | S n' =>
      if negb (String.eqb (py_str.take 1 (py_str.drop (Z.to_nat filenameIndex) p))
                          (String extsep ""))
      then true
      else has_non_dot p (filenameIndex + 1) n'
  end.

(** [os.path.splitext(p)]: the extension starts at the last dot of the last
    path component, provided a character other than a dot precedes it
    there. *)
Definition splitext (p : string) : string * string :=
  let sepIndex := py_str.rfind sep p in
  let dotIndex := py_str.rfind extsep p in
  if (sepIndex <? dotIndex) &&
     has_non_dot p (sepIndex + 1) (Z.to_nat (dotIndex - (sepIndex + 1)))
  then (py_str.slice_to p dotIndex, py_str.slice_from p dotIndex)
  else (p, "").

End os_path.

(* ================================================================= *)
(** ** Python lists, exceptions *)

Module py_list.

(** [x in l] for a list of strings. *)
Definition contains (x : string) (l : list string) : bool :=
  existsb (String.eqb x) l.

(** [l[idx]]: a negative index counts from the end; [None] stands for the
    [IndexError] of an index out of range. *)
Definition getitem {A : Type} (l : list A) (idx : Z) : option A :=
  let n := Z.of_nat (List.length l) in
  if idx <? 0
  then (if idx + n <? 0 then None else nth_error l (Z.to_nat (idx + n)))
  else nth_error l (Z.to_nat idx).

(** [range(n)] *)
Definition range (n : nat) : list Z := map Z.of_nat (seq 0 n).

End py_list.

(** The exceptions the program can raise: the [IndexError] of [check_idx]
    (its message holds the index and the length), the failure of
    [open(...).read()] on a path (missing file, permission, decoding) and
    the [TypeError] of [list += None]. *)
Inductive exn : Type :=
| IndexError (idx : Z) (length : nat)
| IOError (path : string)
| TypeError.

Inductive outcome (A : Type) : Type :=
| Return (a : A)
| Raise (e : exn).

Arguments Return {A} a.
Arguments Raise {A} e.

Definition bind {A B : Type} (c : outcome A) (k : A -> outcome B) : outcome B :=
  match c with
  | Return a => k a
  | Raise e => Raise e
  end.

Notation "x <- c ;; k" := (bind c (fun x => k))
  (at level 61, c at next level, right associativity).
Notation "c ;;; k" := (bind c (fun _ => k))
  (at level 61, right associativity).

(** A [for] loop whose body mutates a state [S] and may raise: the state
    reached when the exception is raised is the one that is left. *)
Fixpoint for_each {S A : Type} (l : list A)
    (body : A -> S -> outcome unit * S) (s : S) : outcome unit * S :=
  match l with
  | [] => (Return tt, s)
  | a :: r =>
      match body a s with
      | (Return _, s') => for_each r body s'
      | (Raise e, s') => (Raise e, s')
      end
  end.

(** A [for] loop that only updates a local variable. *)
Fixpoint for_local {A B : Type} (l : list A)
    (body : A -> B -> outcome B) (acc : B) : outcome B :=
  match l with
  | [] => Return acc
  | a :: r => acc' <- body a acc ;; for_local r body acc'
  end.

(* ================================================================= *)
(** ** The file system *)

(** A directory: its sub-directories and its files, each in the order in
    which the directory lists them. *)
#[warnings="-register-all"]
Inductive dir : Type :=
| Dir (subdirs : list (string * dir)) (files : list string).

(** [fs_dir top] is the directory found at the path [top] ([None] when
    [top] is not a directory); [fs_read p] is what
    [open(p, 'r', encoding = 'utf-8').read()] returns, the text of the file
    at [p] as a text-mode read yields it ([None] when opening, reading or
    decoding fails). *)
Record filesystem : Type := {
  fs_dir : string -> option dir;
  fs_read : string -> option string
}.

Module os.

(** [os.walk(top)], top-down: the triple of a directory, then the walks of
    its sub-directories. *)
Fixpoint walk_dir (top : string) (d : dir)
    : list (string * list string * list string) :=
  match d with
  | Dir subdirs files =>
      (top, map fst subdirs, files) ::
      (fix walk_subdirs (l : list (string * dir)) :=
         match l with
         | [] => []
         | (name, d') :: r => walk_dir (os_path.join top name) d' ++ walk_subdirs r
         end) subdirs
  end.

(** A [top] that is not a directory yields nothing: [os.walk] ignores the
    error of the listing. *)
Definition walk (fs : filesystem) (top : string)
    : list (string * list string * list string) :=
  match fs_dir fs top with
  | Some d => walk_dir top d
  | None => []
  end.

End os.

(* ================================================================= *)
(** ** src/support.py *)

Module support.

Definition get_all_files_from_path (fs : filesystem) (path_to_explore : string)
    (filetype_filter_list : option (list string)) : list string :=
  fold_left
    (fun file_path_list (entry : string * list string * list string) =>
       let '(path, _, files) := entry in
       fold_left
         (fun file_path_list name =>
            let file_path := os_path.join path name in
            match filetype_filter_list with
            | Some filter_list =>
                let file_extension := snd (os_path.splitext file_path) in
                if py_list.contains file_extension filter_list
                then file_path_list ++ [file_path]
                else file_path_list
            | None => file_path_list ++ [file_path]
            end)
         files file_path_list)
    (os.walk fs path_to_explore) [].

End support.

(* ================================================================= *)
(** ** src/scrap_repo.py: class [scrapper] *)

Record scrapper : Type := {
  chunking_function : option (string -> list string);
  files_list : list string;
  chunks : list string
}.

Definition set_files_list (self : scrapper) (l : list string) : scrapper :=
  {| chunking_function := chunking_function self;
     files_list := l;
     chunks := chunks self |}.

Definition set_chunks (self : scrapper) (l : list string) : scrapper :=
  {| chunking_function := chunking_function self;
     files_list := files_list self;
     chunks := l |}.

(** What [print] wrote: a banner line, the header line of a file, or a
    text. *)
Inductive printed : Type :=
| Banner
| FileHeader (idx : Z) (file_path : string)
| Text (s : string).

Section Scrapper.

Variable fs : filesystem.

Definition check_idx (self : scrapper) (idx : Z) : outcome unit :=
  let n := List.length (files_list self) in
  if (idx <? 0) || (idx >=? Z.of_nat n)
  then Raise (IndexError idx n)
  else Return tt.

Definition get_file_content (self : scrapper) (idx : Z) : outcome string :=
  check_idx self idx ;;;
  match py_list.getitem (files_list self) idx with
  | None => Raise (IndexError idx (List.length (files_list self)))
  | Some file_path =>
      match fs_read fs file_path with
      | None => Raise (IOError file_path)
      | Some text => Return (py_str.strip text)
      end
  end.

(** [__getitem__] *)
Definition getitem (self : scrapper) (idx : Z) : outcome string :=
  check_idx self idx ;;;
  get_file_content self idx.

(** The result is [None] when the method falls off its end, which is
    Python's [None]. *)
Definition get_chunks_from_file (self : scrapper) (idx : Z)
    : outcome (option (list string)) :=
  check_idx self idx ;;;
  file_content <- get_file_content self idx ;;
  match chunking_function self with
  | Some chunk => Return (Some (chunk file_content))
  | None => Return None
  end.

Definition create_chunk (self : scrapper) : outcome unit * scrapper :=
  let self := set_chunks self [] in
  match chunking_function self with
  | Some _ =>
      for_each (py_list.range (List.length (files_list self)))
        (fun idx self =>
           match get_chunks_from_file self idx with
           | Raise e => (Raise e, self)
           | Return None => (Raise TypeError, self)
           | Return (Some file_chunks) =>
               (Return tt, set_chunks self (chunks self ++ file_chunks))
           end)
        self
  | None =>
      match
        for_local (py_list.range (List.length (files_list self)))
          (fun idx merged_content =>
             file_content <- get_file_content self idx ;;
             Return (merged_content ++ (file_content ++ blank_line))%string)
          ""%string
      with
      | Raise e => (Raise e, self)
      | Return merged_content =>
          (Return tt, set_chunks self (chunks self ++ [merged_content]))
      end
  end.

Definition update_files_list (self : scrapper) (path_repo : string)
    (file_extension_filter paths_to_ignore_list : option (list string))
    : scrapper :=
  let tmp_files_list :=
    support.get_all_files_from_path fs path_repo file_extension_filter in
  let self := set_files_list self [] in
  match paths_to_ignore_list with
  | Some ignore_list =>
      fold_left
        (fun self tmp_file =>
           let tmp_file_path := os_path.dirname tmp_file in
           if negb (existsb
                      (fun path_to_ignore =>
                         py_str.contains path_to_ignore tmp_file_path)
                      ignore_list)
           then set_files_list self (files_list self ++ [tmp_file])
           else self)
        tmp_files_list self
  | None => set_files_list self tmp_files_list
  end.

Definition update_files_list_and_create_chunks (self : scrapper)
    (path_repo : string)
    (file_extension_filter paths_to_ignore_list : option (list string))
    : outcome unit * scrapper :=
  create_chunk
    (update_files_list self path_repo file_extension_filter paths_to_ignore_list).

(** [__init__]: the attributes [files_list] and [chunks] do not exist before
    the first update, which reads neither. *)
Definition init (path_repo : string)
    (file_extension_filter paths_to_ignore_list : option (list string))
    (chunk : option (string -> list string)) : outcome unit * scrapper :=
  update_files_list_and_create_chunks
    {| chunking_function := chunk; files_list := []; chunks := [] |}
    path_repo file_extension_filter paths_to_ignore_list.

(** [print_file]: the outcome and what was written before it. *)
Definition print_file (self : scrapper) (idx : Z) (extended_output : bool)
    : outcome unit * list printed :=
  if extended_output then
    match check_idx self idx with
    | Raise e => (Raise e, [])
    | Return _ =>
        match py_list.getitem (files_list self) idx with
        | None => (Raise (IndexError idx (List.length (files_list self))), [])
        | Some file_path =>
            let out := [Banner; FileHeader idx file_path] in
            match get_file_content self idx with
            | Raise e => (Raise e, out)
            | Return content => (Return tt, out ++ [Text content; Banner])
            end
        end
    end
  else
    match get_file_content self idx with
    | Raise e => (Raise e, [])
    | Return content => (Return tt, [Text content])
    end.

End Scrapper.

(* ================================================================= *)
(** ** Notions used to state the properties *)

(** The extension of [file_path] is a member of [filter_list]. *)
Definition extension_in (filter_list : list string) (file_path : string) : bool :=
  py_list.contains (snd (os_path.splitext file_path)) filter_list.

(** Some member of [ignore_list] occurs in the directory part of
    [file_path]. *)
Definition ignored (ignore_list : list string) (file_path : string) : bool :=
  existsb (fun path_to_ignore =>
             py_str.contains path_to_ignore (os_path.dirname file_path))
          ignore_list.

(** Every character of [s] satisfies [ws]; the first, respectively the
    last, character of [s], if any, does not. *)
Fixpoint all_in (ws : ascii -> bool) (s : string) : bool :=
  match s with
  | "" => true
  | String a r => ws a && all_in ws r
  end.

Definition head_ok (ws : ascii -> bool) (s : string) : bool :=
  match s with
  | "" => true
  | String a _ => negb (ws a)
  end.

Fixpoint last_ok (ws : ascii -> bool) (s : string) : bool :=
  match s with
  | "" => true
  | String a "" => negb (ws a)
  | String _ r => last_ok ws r
  end.

(** The stripped contents of the longest readable prefix of [files], and
    the first path that cannot be read, if there is one. *)
Fixpoint read_prefix (fs : filesystem) (files : list string)
    : list string * option string :=
  match files with
  | [] => ([], None)
  | f :: r =>
      match fs_read fs f with
      | None => ([], Some f)
      | Some text =>
          let '(contents, failed) := read_prefix fs r in
          (py_str.strip text :: contents, failed)
      end
  end.

Definition read_status (failed : option string) : outcome unit :=
  match failed with
  | None => Return tt
  | Some f => Raise (IOError f)
  end.

Definition valid_idx (self : scrapper) (idx : Z) : Prop :=
  0 <= idx < Z.of_nat (List.length (files_list self)).

(* ================================================================= *)
(** ** The extension of a file name *)

(** The extension as the specification words it: the substring of the file
    name that starts at its last dot, the empty string when the name has no
    dot. *)
Definition spec_extension (name : string) : string :=
  let d := py_str.rfind os_path.extsep name in
  if 0 <=? d then py_str.drop (Z.to_nat d) name else "".

(** Whether a character other than the dot occurs in [s]. *)
Fixpoint some_non_dot (s : string) : bool :=
  match s with
  | "" => false
  | String a r => negb (Ascii.eqb a os_path.extsep) || some_non_dot r
  end.

(** The extension of a file name as [os.path.splitext] computes it: the
    substring that starts at the last dot, provided a character other than
    a dot comes before that dot; the empty string otherwise. *)
Definition filename_extension (name : string) : string :=
  let d := py_str.rfind os_path.extsep name in
  if (0 <=? d) && some_non_dot (py_str.take (Z.to_nat d) name)
  then py_str.drop (Z.to_nat d) name
  else "".

(** [sub] occurs in [s]. *)
Definition substring_of (sub s : string) : Prop :=
  exists pre post : string, s = (pre ++ sub ++ post)%string.

(** The whole-corpus concatenation: every content followed by a blank
    line. *)
Definition blank_line_joined (contents : list string) : string :=
  fold_right (fun c rest => (c ++ blank_line ++ rest)%string) "" contents.

(** The files under [top], in the order of the walk, no filter applied. *)
Definition located (fs : filesystem) (top : string) : list string :=
  flat_map
    (fun entry : string * list string * list string =>
       let '(path, _, files) := entry in map (os_path.join path) files)
    (os.walk fs top).

(* ================================================================= *)
(** ** Concrete file systems *)

Fixpoint assoc (l : list (string * string)) (p : string) : option string :=
  match l with
  | [] => None
  | (k, v) :: r => if String.eqb k p then Some v else assoc r p
  end.

(** A file system with one directory tree at [top] and the given readable
    files. *)
Definition mk_fs (top : string) (d : dir) (contents : list (string * string))
    : filesystem :=
  {| fs_dir := fun p => if String.eqb p top then Some d else None;
     fs_read := assoc contents |}.

Definition tree_md : dir := Dir [] ["a.md"; "b.txt"; "c.MD"].
Definition fs_md : filesystem :=
  mk_fs "root" tree_md
    [("root/a.md", "alpha"); ("root/b.txt", "beta"); ("root/c.MD", "gamma")].

Definition tree_data : dir :=
  Dir [("data", Dir [] ["x.txt"]);
       ("metadata", Dir [] ["y.txt"]);
       ("src", Dir [] ["z.txt"])]
      ["top.txt"].
Definition fs_data : filesystem :=
  mk_fs "root" tree_data
    [("root/top.txt", "t"); ("root/data/x.txt", "x");
     ("root/metadata/y.txt", "y"); ("root/src/z.txt", "z")].

Definition tree_dotfile : dir := Dir [] [".gitignore"; "..cfg"; "a.md"].
Definition fs_dotfile : filesystem :=
  mk_fs "root" tree_dotfile
    [("root/.gitignore", "*.vo"); ("root/..cfg", "k = v"); ("root/a.md", "alpha")].

Definition tree_two : dir := Dir [] ["f1"; "f2"].
Definition fs_AB : filesystem :=
  mk_fs "root" tree_two
    [("root/f1", String LF " A  "); ("root/f2", "B" ++ String LF "")%string].
Definition fs_xyz : filesystem :=
  mk_fs "root" tree_two [("root/f1", "x y"); ("root/f2", "z")].
(** [f2] is listed by the directory but cannot be read. *)
Definition fs_unreadable : filesystem :=
  mk_fs "root" tree_two [("root/f1", "A")].

Definition files_AB : list string := ["root/f1"; "root/f2"].

Definition scrapper_of (chunk : option (string -> list string))
    (files old_chunks : list string) : scrapper :=
  {| chunking_function := chunk; files_list := files; chunks := old_chunks |}.

(** A scraper over [f1] and [f2] with a whitespace splitter, holding a chunk
    list from an earlier rebuild. *)
Definition scrapper_stale : scrapper :=
  scrapper_of (Some py_str.split) files_AB ["stale"].

(* ================================================================= *)
(** ** [print_all_files] *)

(** [enumerate(l)] *)
Definition py_enumerate {A : Type} (l : list A) : list (Z * A) :=
  combine (py_list.range (List.length l)) l.

Section Printing.

Variable fs : filesystem.

(** [print_all_files]: [print_file] on every index, in order; what was
    written accumulates and an exception ends the loop. *)
Definition print_all_files (self : scrapper) (extended_output : bool)
    : outcome unit * list printed :=
  for_each (py_enumerate (files_list self))
    (fun (entry : Z * string) (out : list printed) =>
       let '(idx, _) := entry in
       let '(result, written) := print_file fs self idx extended_output in
       (result, out ++ written))
    [].

End Printing.

(** What [print_file] writes for a file that is read: the content alone, or
    the content framed by the header and the banners. *)
Definition file_output (extended_output : bool) (idx : Z) (file_path content : string)
    : list printed :=
  if extended_output
  then [Banner; FileHeader idx file_path; Text content; Banner]
  else [Text content].

(** What [print_file] writes before the read of a file fails. *)
Definition failed_output (extended_output : bool) (idx : Z) (file_path : string)
    : list printed :=
  if extended_output then [Banner; FileHeader idx file_path] else [].

(** The output for the files [files], read as [raws], the first of them at
    index [start]. *)
Fixpoint files_output (extended_output : bool) (start : nat)
    (files raws : list string) : list printed :=
  match files, raws with
  | f :: files', raw :: raws' =>
      file_output extended_output (Z.of_nat start) f (py_str.strip raw)
      ++ files_output extended_output (S start) files' raws'
  | _, _ => []
  end.

(** A located file passes the extension filter and the ignore list, each
    of them when given. *)
Definition selected (ext ignore : option (list string)) (file_path : string) : bool :=
  match ext with
  | Some filter_list => extension_in filter_list file_path
  | None => true
  end &&
  match ignore with
  | Some ignore_list => negb (ignored ignore_list file_path)
  | None => true
  end.

(** The fragments [get_chunks_from_file] returns, none when it returns
    [None] or raises. *)
Definition fragments_of (r : outcome (option (list string))) : list string :=
  match r with
  | Return (Some file_chunks) => file_chunks
  | _ => []
  end.

(** A file system without any directory. *)
Definition fs_empty : filesystem :=
  {| fs_dir := fun _ => None; fs_read := fun _ => None |}.

Definition fs_blank : filesystem :=
  mk_fs "root" tree_two [("root/f1", String LF "  "); ("root/f2", "")].

(* ================================================================= *)
(** ** Text-mode reads of the bytes on disk *)



Module utf8.

Local Open Scope N_scope.





End utf8.







Example join_ex1 : os_path.join "root" "a.md" = "root/a.md".
Proof. reflexivity. Qed.
Example join_ex2 : os_path.join "root/" "a.md" = "root/a.md".
Proof. reflexivity. Qed.
Example dirname_ex1 : os_path.dirname "root/data/x.txt" = "root/data".
Proof. reflexivity. Qed.
Example dirname_ex2 : os_path.dirname "/x.txt" = "/".
Proof. reflexivity. Qed.
Example dirname_ex3 : os_path.dirname "x.txt" = "".
Proof. reflexivity. Qed.
Example dirname_ex4 : os_path.dirname "a//b" = "a".
Proof. reflexivity. Qed.
Example splitext_ex1 : os_path.splitext "root/a.md" = ("root/a", ".md").
Proof. reflexivity. Qed.
Example splitext_ex2 : os_path.splitext "root/.gitignore" = ("root/.gitignore", "").
Proof. reflexivity. Qed.
Example splitext_ex3 : os_path.splitext "ro.ot/a" = ("ro.ot/a", "").
Proof. reflexivity. Qed.
Example splitext_ex4 : os_path.splitext "root/..a.b" = ("root/..a", ".b").
Proof. reflexivity. Qed.
Example splitext_ex5 : os_path.splitext "x.tar.gz" = ("x.tar", ".gz").
Proof. reflexivity. Qed.
Example strip_ex1 : py_str.strip "  a b  " = "a b".
Proof. reflexivity. Qed.
Example split_ex1 : py_str.split " x  y " = ["x"; "y"].
Proof. reflexivity. Qed.

(* ================================================================= *)
(** ** Loops that append are filters and flat maps *)

Section Loops.

Context {A B : Type}.

Lemma fold_left_append_if (p : B -> bool) (g : A -> B) (l : list A) (acc : list B) :
  fold_left (fun acc x => if p (g x) then acc ++ [g x] else acc) l acc
  = acc ++ filter p (map g l).
Proof.
  revert acc; induction l as [|x l IH]; intros acc; simpl.
  - now rewrite app_nil_r.
  - rewrite IH. destruct (p (g x)); simpl; [now rewrite <- app_assoc|reflexivity].
Qed.

Lemma fold_left_append_all (g : A -> B) (l : list A) (acc : list B) :
  fold_left (fun acc x => acc ++ [g x]) l acc = acc ++ map g l.
Proof.
  revert acc; induction l as [|x l IH]; intros acc; simpl.
  - now rewrite app_nil_r.
  - rewrite IH. now rewrite <- app_assoc.
Qed.

Lemma fold_left_extend (step : list B -> A -> list B) (h : A -> list B)
    (l : list A) (acc : list B) :
  (forall acc x, step acc x = acc ++ h x) ->
  fold_left step l acc = acc ++ flat_map h l.
Proof.
  intros Hstep. revert acc; induction l as [|x l IH]; intros acc; simpl.
  - now rewrite app_nil_r.
  - rewrite IH, Hstep. now rewrite <- app_assoc.
Qed.

Lemma filter_flat_map_comm (p : B -> bool) (h : A -> list B) (l : list A) :
  filter p (flat_map h l) = flat_map (fun x => filter p (h x)) l.
Proof.
  induction l as [|x l IH]; simpl; [reflexivity|].
  now rewrite filter_app, IH.
Qed.

End Loops.

(** *** [support.get_all_files_from_path] *)

Lemma get_all_files_no_filter fs top :
  support.get_all_files_from_path fs top None = located fs top.
Proof.
  unfold support.get_all_files_from_path, located.
  rewrite fold_left_extend
    with (h := fun e : string * list string * list string =>
                 let '(path, _, files) := e in map (os_path.join path) files).
  - reflexivity.
  - intros acc [[path dirs] files]. apply fold_left_append_all.
Qed.

Lemma get_all_files_filter fs top filter_list :
  support.get_all_files_from_path fs top (Some filter_list)
  = filter (extension_in filter_list) (located fs top).
Proof.
  unfold support.get_all_files_from_path, located.
  rewrite filter_flat_map_comm.
  rewrite fold_left_extend
    with (h := fun e : string * list string * list string =>
                 filter (extension_in filter_list)
                   (let '(path, _, files) := e in map (os_path.join path) files)).
  - reflexivity.
  - intros acc [[path dirs] files].
    apply (fold_left_append_if (extension_in filter_list) (os_path.join path)).
Qed.

(* ================================================================= *)
(** ** Strings *)

Lemma append_empty_r (s : string) : (s ++ "")%string = s.
Proof. induction s as [|a s IH]; simpl; [reflexivity|now rewrite IH]. Qed.

Lemma append_assoc (s t u : string) :
  ((s ++ t) ++ u)%string = (s ++ t ++ u)%string.
Proof. induction s as [|a s IH]; simpl; [reflexivity|now rewrite IH]. Qed.

Lemma startswith_spec (p s : string) :
  py_str.startswith p s = true <-> exists post, s = (p ++ post)%string.
Proof.
  revert s; induction p as [|a p IH]; intros s; simpl.
  - split; [intros _; now exists s|reflexivity].
  - destruct s as [|b s].
    + split; [discriminate|intros [post H]; discriminate].
    + rewrite andb_true_iff, Ascii.eqb_eq, IH. split.
      * intros [-> [post ->]]. now exists post.
      * intros [post H]. injection H as -> ->. split; [reflexivity|now exists post].
Qed.

Lemma contains_spec (sub s : string) :
  py_str.contains sub s = true <-> substring_of sub s.
Proof.
  unfold substring_of. induction s as [|a s IH].
  - simpl. rewrite orb_false_r, startswith_spec. split.
    + intros [post H]. now exists "", post.
    + intros [[|b pre] [post H]]; [now exists post|discriminate].
  - cbn [py_str.contains]. rewrite orb_true_iff, startswith_spec, IH. split.
    + intros [[post H]|[pre [post H]]].
      * now exists "", post.
      * exists (String a pre), post. simpl. now rewrite H.
    + intros [[|b pre] [post H]].
      * left. now exists post.
      * right. injection H as _ H. now exists pre, post.
Qed.

Section Strip.

Variable ws : ascii -> bool.

Lemma lstrip_split (s : string) :
  exists pre, s = (pre ++ py_str.lstrip_by ws s)%string /\ all_in ws pre = true.
Proof.
  induction s as [|a s [pre [H1 H2]]]; simpl.
  - now exists "".
  - destruct (ws a) eqn:E.
    + exists (String a pre). simpl. rewrite E, H2. split; [now rewrite <- H1|reflexivity].
    + now exists "".
Qed.

Lemma lstrip_head (s : string) : head_ok ws (py_str.lstrip_by ws s) = true.
Proof.
  induction s as [|a s IH]; simpl; [reflexivity|].
  destruct (ws a) eqn:E; [exact IH|simpl; now rewrite E].
Qed.

Lemma lstrip_last (s : string) :
  last_ok ws s = true -> last_ok ws (py_str.lstrip_by ws s) = true.
Proof.
  induction s as [|a s IH]; simpl; [reflexivity|].
  destruct (ws a) eqn:E.
  - destruct s as [|b s]; [reflexivity|]. exact IH.
  - intros H. simpl. now rewrite E.
Qed.

Lemma rstrip_split (s : string) :
  exists post, s = (py_str.rstrip_by ws s ++ post)%string /\ all_in ws post = true.
Proof.
  induction s as [|a s [post [H1 H2]]]; simpl.
  - now exists "".
  - destruct (py_str.rstrip_by ws s) as [|b r] eqn:R.
    + simpl in H1. subst post. destruct (ws a) eqn:E.
      * exists (String a s). simpl. now rewrite E, H2.
      * now exists s.
    + exists post. simpl. split; [now rewrite H1 at 1|exact H2].
Qed.

Lemma rstrip_last (s : string) : last_ok ws (py_str.rstrip_by ws s) = true.
Proof.
  induction s as [|a s IH]; simpl; [reflexivity|].
  destruct (py_str.rstrip_by ws s) as [|b r] eqn:R.
  - destruct (ws a) eqn:E; simpl; [reflexivity|now rewrite E].
  - exact IH.
Qed.

End Strip.

(** [strip] removes a run of whitespace at each end, and no more can be
    removed. *)
Lemma strip_spec (raw : string) :
  exists pre post,
    raw = (pre ++ py_str.strip raw ++ post)%string /\
    all_in py_str.isspace pre = true /\
    all_in py_str.isspace post = true /\
    head_ok py_str.isspace (py_str.strip raw) = true /\
    last_ok py_str.isspace (py_str.strip raw) = true.
Proof.
  unfold py_str.strip.
  destruct (rstrip_split py_str.isspace raw) as [post [H1 H2]].
  destruct (lstrip_split py_str.isspace (py_str.rstrip_by py_str.isspace raw))
    as [pre [H3 H4]].
  exists pre, post. repeat split; trivial.
  - rewrite <- append_assoc, <- H3. exact H1.
  - apply lstrip_head.
  - apply lstrip_last, rstrip_last.
Qed.

(* ================================================================= *)
(** ** Index checks and reads *)

Lemma check_idx_valid self idx :
  valid_idx self idx -> check_idx self idx = Return tt.
Proof.
  unfold valid_idx, check_idx. intros H.
  destruct (idx <? 0) eqn:E1; [lia|].
  destruct (idx >=? _) eqn:E2; [lia|reflexivity].
Qed.

Lemma check_idx_invalid self idx :
  ~ valid_idx self idx ->
  check_idx self idx = Raise (IndexError idx (List.length (files_list self))).
Proof.
  unfold valid_idx, check_idx. intros H.
  destruct (idx <? 0) eqn:E1; [reflexivity|].
  destruct (idx >=? _) eqn:E2; [reflexivity|lia].
Qed.

Lemma getitem_valid {A : Type} (l : list A) idx :
  0 <= idx < Z.of_nat (List.length l) ->
  exists a, py_list.getitem l idx = Some a /\ nth_error l (Z.to_nat idx) = Some a.
Proof.
  intros H. unfold py_list.getitem.
  destruct (idx <? 0) eqn:E; [lia|].
  destruct (nth_error l (Z.to_nat idx)) as [a|] eqn:N.
  - now exists a.
  - apply nth_error_None in N. lia.
Qed.

Lemma get_file_content_valid fs self idx :
  valid_idx self idx ->
  exists file_path,
    nth_error (files_list self) (Z.to_nat idx) = Some file_path /\
    get_file_content fs self idx =
      match fs_read fs file_path with
      | None => Raise (IOError file_path)
      | Some text => Return (py_str.strip text)
      end.
Proof.
  intros H. unfold get_file_content. rewrite (check_idx_valid _ _ H). simpl.
  destruct (getitem_valid (files_list self) idx H) as [a [G N]].
  exists a. now rewrite G.
Qed.

Lemma valid_idx_middle self pre a rest :
  files_list self = pre ++ a :: rest ->
  valid_idx self (Z.of_nat (List.length pre)).
Proof.
  intros H. unfold valid_idx. rewrite H, length_app. simpl. lia.
Qed.

Lemma get_file_content_at fs self pre a rest :
  files_list self = pre ++ a :: rest ->
  get_file_content fs self (Z.of_nat (List.length pre)) =
    match fs_read fs a with
    | None => Raise (IOError a)
    | Some text => Return (py_str.strip text)
    end.
Proof.
  intros H.
  destruct (get_file_content_valid fs self _ (valid_idx_middle _ _ _ _ H))
    as [p [N G]].
  rewrite G. rewrite H, Nat2Z.id, nth_error_app2, Nat.sub_diag in N by lia.
  simpl in N. now injection N as ->.
Qed.

Lemma get_chunks_from_file_at fs self pre a rest :
  files_list self = pre ++ a :: rest ->
  get_chunks_from_file fs self (Z.of_nat (List.length pre)) =
    match fs_read fs a with
    | None => Raise (IOError a)
    | Some text =>
        match chunking_function self with
        | Some chunk => Return (Some (chunk (py_str.strip text)))
        | None => Return None
        end
    end.
Proof.
  intros H. unfold get_chunks_from_file.
  rewrite (check_idx_valid _ _ (valid_idx_middle _ _ _ _ H)).
  cbn [bind]. rewrite (get_file_content_at fs _ _ _ _ H).
  now destruct (fs_read fs a).
Qed.

(** *** The two loops of [create_chunk] *)

Lemma chunk_loop fs chunk : forall rest pre self,
  chunking_function self = Some chunk ->
  files_list self = pre ++ rest ->
  for_each (map Z.of_nat (seq (List.length pre) (List.length rest)))
    (fun idx self =>
       match get_chunks_from_file fs self idx with
       | Raise e => (Raise e, self)
       | Return None => (Raise TypeError, self)
       | Return (Some file_chunks) =>
           (Return tt, set_chunks self (chunks self ++ file_chunks))
       end)
    self
  = (read_status (snd (read_prefix fs rest)),
     set_chunks self (chunks self ++ flat_map chunk (fst (read_prefix fs rest)))).
Proof.
  induction rest as [|a rest IH]; intros pre self Hc Hf.
  - simpl. rewrite app_nil_r. now destruct self.
  - cbn [List.length seq map for_each read_prefix].
    rewrite (get_chunks_from_file_at fs _ _ _ _ Hf), Hc.
    destruct (fs_read fs a) as [text|].
    + specialize (IH (pre ++ [a])
                     (set_chunks self (chunks self ++ chunk (py_str.strip text)))).
      rewrite length_app, Nat.add_1_r in IH. rewrite IH.
      * destruct (read_prefix fs rest) as [contents failed]. simpl.
        now rewrite <- app_assoc.
      * exact Hc.
      * simpl. now rewrite <- app_assoc.
    + simpl. rewrite app_nil_r. now destruct self.
Qed.

Lemma merge_loop fs : forall rest pre self acc,
  files_list self = pre ++ rest ->
  for_local (map Z.of_nat (seq (List.length pre) (List.length rest)))
    (fun idx merged_content =>
       file_content <- get_file_content fs self idx ;;
       Return (merged_content ++ (file_content ++ blank_line))%string)
    acc
  = match snd (read_prefix fs rest) with
    | None => Return (acc ++ blank_line_joined (fst (read_prefix fs rest)))%string
    | Some f => Raise (IOError f)
    end.
Proof.
  induction rest as [|a rest IH]; intros pre self acc Hf.
  - simpl. now rewrite append_empty_r.
  - cbn [List.length seq map for_local read_prefix].
    rewrite (get_file_content_at fs _ _ _ _ Hf).
    destruct (fs_read fs a) as [text|]; cbn [bind]; [|reflexivity].
    specialize (IH (pre ++ [a]) self).
    rewrite length_app, Nat.add_1_r in IH. rewrite IH.
    + destruct (read_prefix fs rest) as [contents [f|]]; simpl; [reflexivity|].
      now rewrite !append_assoc.
    + now rewrite <- app_assoc.
Qed.

(** [create_chunk] on any state: what it returns and what it leaves. *)
Lemma create_chunk_eq fs self :
  create_chunk fs self =
    let '(contents, failed) := read_prefix fs (files_list self) in
    match chunking_function self with
    | Some chunk => (read_status failed, set_chunks self (flat_map chunk contents))
    | None =>
        match failed with
        | None => (Return tt, set_chunks self [blank_line_joined contents])
        | Some f => (Raise (IOError f), set_chunks self [])
        end
    end.
Proof.
  unfold create_chunk. cbv zeta.
  change (chunking_function (set_chunks self [])) with (chunking_function self).
  change (files_list (set_chunks self [])) with (files_list self).
  unfold py_list.range.
  destruct (chunking_function self) as [chunk|] eqn:Hc.
  - pose proof (chunk_loop fs chunk (files_list self) [] (set_chunks self [])
                  Hc eq_refl) as L.
    cbn [List.length] in L. rewrite L.
    now destruct (read_prefix fs (files_list self)).
  - pose proof (merge_loop fs (files_list self) [] (set_chunks self []) ""
                  eq_refl) as L.
    cbn [List.length] in L. rewrite L.
    now destruct (read_prefix fs (files_list self)) as [contents [f|]].
Qed.

Lemma read_prefix_all fs files raws :
  Forall2 (fun f raw => fs_read fs f = Some raw) files raws ->
  read_prefix fs files = (map py_str.strip raws, None).
Proof.
  induction 1 as [|f raw files raws H _ IH]; simpl; [reflexivity|].
  now rewrite H, IH.
Qed.

Lemma read_prefix_fails fs readable raws f post :
  Forall2 (fun f raw => fs_read fs f = Some raw) readable raws ->
  fs_read fs f = None ->
  read_prefix fs (readable ++ f :: post) = (map py_str.strip raws, Some f).
Proof.
  intros H Hf. induction H as [|g raw files raws H _ IH]; simpl.
  - now rewrite Hf.
  - now rewrite H, IH.
Qed.

(* ================================================================= *)
(** ** [update_files_list] *)

Lemma set_files_list_same self : set_files_list self (files_list self) = self.
Proof. now destruct self. Qed.

Lemma ignore_loop ignore_list : forall files self,
  fold_left
    (fun self tmp_file =>
       let tmp_file_path := os_path.dirname tmp_file in
       if negb (existsb
                  (fun path_to_ignore =>
                     py_str.contains path_to_ignore tmp_file_path)
                  ignore_list)
       then set_files_list self (files_list self ++ [tmp_file])
       else self)
    files self
  = set_files_list self
      (files_list self ++ filter (fun f => negb (ignored ignore_list f)) files).
Proof.
  induction files as [|f files IH]; intros self; cbn [fold_left filter].
  - now rewrite app_nil_r, set_files_list_same.
  - rewrite IH. cbv zeta. fold (ignored ignore_list f).
    destruct (negb (ignored ignore_list f)); [|reflexivity].
    unfold set_files_list. simpl. now rewrite <- app_assoc.
Qed.

Lemma update_files_list_eq fs self path_repo ext ignore :
  update_files_list fs self path_repo ext ignore =
    set_files_list self
      (let tmp_files_list := support.get_all_files_from_path fs path_repo ext in
       match ignore with
       | Some ignore_list =>
           filter (fun f => negb (ignored ignore_list f)) tmp_files_list
       | None => tmp_files_list
       end).
Proof.
  unfold update_files_list. cbv zeta. destruct ignore as [ignore_list|].
  - now rewrite ignore_loop.
  - reflexivity.
Qed.

Lemma ignored_spec ignore_list file_path :
  ignored ignore_list file_path = true <->
  exists path_to_ignore,
    In path_to_ignore ignore_list /\
    substring_of path_to_ignore (os_path.dirname file_path).
Proof.
  unfold ignored. rewrite existsb_exists.
  split; intros [p [H1 H2]]; exists p; split; trivial; now apply contains_spec.
Qed.

Lemma list_contains_spec x l : py_list.contains x l = true <-> In x l.
Proof.
  unfold py_list.contains. rewrite existsb_exists. split.
  - intros [y [H1 H2]]. apply String.eqb_eq in H2. now subst.
  - intros H. exists x. split; [exact H|apply String.eqb_refl].
Qed.

(* ================================================================= *)
(** ** [os.path.splitext] seen from the file name *)

Lemma rfind_range c s : -1 <= py_str.rfind c s < py_str.len s.
Proof.
  unfold py_str.len. induction s as [|a s IH]; cbn [String.length py_str.rfind].
  - lia.
  - destruct (0 <=? py_str.rfind c s) eqn:E; [lia|].
    destruct (Ascii.eqb a c); lia.
Qed.

Lemma len_append s t : py_str.len (s ++ t) = py_str.len s + py_str.len t.
Proof.
  unfold py_str.len.
  induction s as [|a s IH]; cbn [String.append String.length]; lia.
Qed.

Lemma rfind_append c pre s :
  py_str.rfind c (pre ++ s) =
    if 0 <=? py_str.rfind c s then py_str.len pre + py_str.rfind c s
    else py_str.rfind c pre.
Proof.
  induction pre as [|a pre IH]; cbn [String.append py_str.rfind].
  - unfold py_str.len; simpl. destruct (0 <=? py_str.rfind c s) eqn:E; [reflexivity|].
    pose proof (rfind_range c s). lia.
  - rewrite IH. clear IH.
    pose proof (rfind_range c s). pose proof (rfind_range c pre).
    unfold py_str.len in *. cbn [String.length].
    destruct (0 <=? py_str.rfind c s) eqn:E.
    + destruct (0 <=? Z.of_nat (String.length pre) + py_str.rfind c s) eqn:E2; lia.
    + reflexivity.
Qed.

Lemma rfind_endswith c pre :
  py_str.endswith_char c pre = true -> py_str.rfind c pre = py_str.len pre - 1.
Proof.
  unfold py_str.len. induction pre as [|a pre IH]; [discriminate|].
  destruct pre as [|b pre].
  - simpl. intros ->. reflexivity.
  - intros H. change (py_str.endswith_char c (String b pre) = true) in H.
    specialize (IH H). remember (String b pre) as t eqn:Ht.
    cbn [py_str.rfind String.length]. rewrite IH.
    assert (0 < Z.of_nat (String.length t)) by (subst t; cbn [String.length]; lia).
    destruct (0 <=? Z.of_nat (String.length t) - 1) eqn:E; lia.
Qed.

Lemma drop_append pre s : py_str.drop (String.length pre) (pre ++ s) = s.
Proof. induction pre as [|a pre IH]; simpl; [now destruct s|exact IH]. Qed.

Lemma drop_append_more pre s n :
  py_str.drop (String.length pre + n) (pre ++ s) = py_str.drop n s.
Proof. induction pre as [|a pre IH]; simpl; [reflexivity|exact IH]. Qed.

Lemma has_non_dot_spec : forall n s pre,
  (n <= String.length s)%nat ->
  os_path.has_non_dot (pre ++ s) (py_str.len pre) n = some_non_dot (py_str.take n s).
Proof.
  induction n as [|n IH]; intros s pre Hn; [reflexivity|].
  destruct s as [|a s]; [simpl in Hn; lia|].
  cbn [os_path.has_non_dot py_str.take some_non_dot].
  unfold py_str.len at 1. rewrite Nat2Z.id, drop_append.
  cbn [py_str.take]. 
  replace (String.eqb (String a "") (String os_path.extsep ""))
    with (Ascii.eqb a os_path.extsep)
    by (simpl; now destruct (Ascii.eqb a os_path.extsep)).
  destruct (Ascii.eqb a os_path.extsep) eqn:E; [|reflexivity].
  cbn [negb orb].
  specialize (IH s (pre ++ String a "")%string).
  rewrite append_assoc in IH. cbn [String.append] in IH.
  rewrite len_append in IH. unfold py_str.len at 2 in IH. simpl String.length in IH.
  apply IH. simpl in Hn. lia.
Qed.

(** On a path that ends with a file name free of separators, the extension
    is decided by the file name alone. *)
Lemma splitext_prefix pre name :
  py_str.rfind os_path.sep name = -1 ->
  pre = "" \/ py_str.endswith_char os_path.sep pre = true ->
  snd (os_path.splitext (pre ++ name)) = filename_extension name.
Proof.
  intros Hname Hpre.
  assert (Hsep : py_str.rfind os_path.sep (pre ++ name) + 1 = py_str.len pre).
  { rewrite rfind_append, Hname. change (0 <=? -1) with false. cbv iota.
    destruct Hpre as [->|H]; [reflexivity|]. rewrite (rfind_endswith _ _ H). lia. }
  unfold os_path.splitext, filename_extension. cbv zeta.
  rewrite Hsep, (rfind_append os_path.extsep).
  pose proof (rfind_range os_path.extsep name) as Rn.
  pose proof (rfind_range os_path.extsep pre) as Rp.
  destruct (0 <=? py_str.rfind os_path.extsep name) eqn:E.
  - replace (py_str.rfind os_path.sep (pre ++ name) <? _) with true
      by (symmetry; apply Z.ltb_lt; lia).
    replace (py_str.len pre + py_str.rfind os_path.extsep name - py_str.len pre)
      with (py_str.rfind os_path.extsep name) by lia.
    cbn [andb]. rewrite has_non_dot_spec by (unfold py_str.len in Rn; lia).
    destruct (some_non_dot _); [|reflexivity].
    cbn [snd]. unfold py_str.slice_from.
    replace (_ <? 0) with false by (symmetry; apply Z.ltb_ge; unfold py_str.len; lia).
    unfold py_str.len. rewrite Z2Nat.inj_add, Nat2Z.id by lia.
    apply drop_append_more.
  - replace (py_str.rfind os_path.sep (pre ++ name) <? _) with false
      by (symmetry; apply Z.ltb_ge; lia).
    reflexivity.
Qed.

Lemma no_sep_not_absolute name :
  py_str.rfind os_path.sep name = -1 ->
  py_str.startswith (String os_path.sep "") name = false.
Proof.
  destruct name as [|a name]; [reflexivity|].
  cbn [py_str.rfind py_str.startswith]. pose proof (rfind_range os_path.sep name).
  destruct (0 <=? _) eqn:E; [lia|].
  intros Ha. destruct (Ascii.eqb a os_path.sep) eqn:E2; [discriminate Ha|].
  rewrite Ascii.eqb_sym, E2. reflexivity.
Qed.

Lemma endswith_append_sep pre :
  py_str.endswith_char os_path.sep (pre ++ String os_path.sep "") = true.
Proof.
  induction pre as [|a pre IH]; [reflexivity|].
  cbn [String.append py_str.endswith_char].
  destruct (pre ++ String os_path.sep "")%string eqn:E; [|exact IH].
  destruct pre; discriminate.
Qed.

Lemma splitext_join path name :
  py_str.rfind os_path.sep name = -1 ->
  snd (os_path.splitext (os_path.join path name)) = filename_extension name.
Proof.
  intros H. unfold os_path.join. rewrite (no_sep_not_absolute _ H).
  destruct (String.eqb path "") eqn:E.
  - apply String.eqb_eq in E. subst. now apply splitext_prefix; [|left].
  - destruct (py_str.endswith_char os_path.sep path) eqn:E2; cbn [orb].
    + now apply splitext_prefix; [|right].
    + change (path ++ String os_path.sep name)%string
        with (path ++ (String os_path.sep "" ++ name))%string.
      rewrite <- append_assoc. apply splitext_prefix; [exact H|right].
      apply endswith_append_sep.
Qed.

(* ================================================================= *)
(** ** The claims *)

(** Closes [~ In x l] on a concrete list of strings once it is evaluated. *)
Ltac not_in_list :=
  let H := fresh in
  intros H; repeat (destruct H as [H|H]; [discriminate H|]); exact H.

(** C1: with no chunking capability, rebuilding the chunks over files whose
    stripped contents are c1, ..., cn leaves exactly one chunk, the
    concatenation c1 + blank line + ... + cn + blank line (a blank line
    after every file, the last one included); over no file at all the
    single chunk is the empty string. *)
Theorem C1_no_chunking_one_merged_chunk fs self raws :
  chunking_function self = None ->
  Forall2 (fun f raw => fs_read fs f = Some raw) (files_list self) raws ->
  create_chunk fs self =
    (Return tt, set_chunks self [blank_line_joined (map py_str.strip raws)]) /\
  (forall c cs, blank_line_joined (c :: cs)
                = (c ++ blank_line ++ blank_line_joined cs)%string) /\
  (files_list self = [] -> chunks (snd (create_chunk fs self)) = [""]).
Proof.
  intros Hc Hr. rewrite create_chunk_eq, (read_prefix_all _ _ _ Hr), Hc.
  split; [reflexivity|]. split; [reflexivity|].
  intros Hf. rewrite Hf in Hr. inversion Hr. reflexivity.
Qed.

Lemma C1_witness_A_B :
  Forall2 (fun f raw => fs_read fs_AB f = Some raw) files_AB
    [String LF " A  "; String "B" (String LF "")] /\
  create_chunk fs_AB (scrapper_of None files_AB ["stale"]) =
    (Return tt,
     scrapper_of None files_AB [("A" ++ blank_line ++ "B" ++ blank_line)%string]).
Proof.
  assert (H : Forall2 (fun f raw => fs_read fs_AB f = Some raw) files_AB
                [String LF " A  "; String "B" (String LF "")])
    by (repeat constructor).
  split; [exact H|].
  exact (proj1 (C1_no_chunking_one_merged_chunk fs_AB
                  (scrapper_of None files_AB ["stale"]) _ eq_refl H)).
Defined.

(** C2: with a chunking capability, rebuilding the chunks leaves the
    per-file results of the capability on the stripped contents, flattened
    in file order, each result in the order it was returned; a file whose
    result is empty contributes nothing. *)
Theorem C2_chunking_flattens_in_file_order fs self chunk raws :
  chunking_function self = Some chunk ->
  Forall2 (fun f raw => fs_read fs f = Some raw) (files_list self) raws ->
  create_chunk fs self =
    (Return tt, set_chunks self (flat_map chunk (map py_str.strip raws))) /\
  (forall c cs, flat_map chunk (c :: cs) = chunk c ++ flat_map chunk cs) /\
  (forall c cs, chunk c = [] -> flat_map chunk (c :: cs) = flat_map chunk cs).
Proof.
  intros Hc Hr. rewrite create_chunk_eq, (read_prefix_all _ _ _ Hr), Hc.
  split; [reflexivity|]. split; [reflexivity|].
  intros c cs H. simpl. now rewrite H.
Qed.

Lemma C2_witness_x_y_z :
  Forall2 (fun f raw => fs_read fs_xyz f = Some raw) files_AB ["x y"; "z"] /\
  create_chunk fs_xyz (scrapper_of (Some py_str.split) files_AB ["stale"]) =
    (Return tt, scrapper_of (Some py_str.split) files_AB ["x"; "y"; "z"]).
Proof.
  assert (H : Forall2 (fun f raw => fs_read fs_xyz f = Some raw) files_AB
                ["x y"; "z"]) by (repeat constructor).
  split; [exact H|].
  exact (proj1 (C2_chunking_flattens_in_file_order fs_xyz
                  (scrapper_of (Some py_str.split) files_AB ["stale"])
                  py_str.split _ eq_refl H)).
Defined.

(** C3: for every index outside [0, len(FileList)), get_file_content,
    get_chunks_from_file, the indexed access and print_file raise the
    IndexError of check_idx and print nothing: the index is neither
    clamped nor replaced, and a negative index is rejected, not taken from
    the end. *)
Theorem C3_index_out_of_range_raises fs self idx :
  idx < 0 \/ Z.of_nat (List.length (files_list self)) <= idx ->
  let e := IndexError idx (List.length (files_list self)) in
  get_file_content fs self idx = Raise e /\
  get_chunks_from_file fs self idx = Raise e /\
  getitem fs self idx = Raise e /\
  (forall extended_output,
     print_file fs self idx extended_output = (Raise e, [])).
Proof.
  intros H e.
  assert (Hc : check_idx self idx = Raise e)
    by (apply check_idx_invalid; unfold valid_idx; lia).
  assert (Hg : get_file_content fs self idx = Raise e)
    by (unfold get_file_content; now rewrite Hc).
  repeat split.
  - exact Hg.
  - unfold get_chunks_from_file. now rewrite Hc.
  - unfold getitem. now rewrite Hc.
  - intros [|]; unfold print_file; [now rewrite Hc|now rewrite Hg].
Qed.

Lemma C3_witness_minus_one_and_len :
  py_list.getitem files_AB (-1) = Some "root/f2" /\
  get_file_content fs_AB (scrapper_of None files_AB []) (-1)
    = Raise (IndexError (-1) 2) /\
  get_file_content fs_AB (scrapper_of None files_AB []) 2
    = Raise (IndexError 2 2).
Proof.
  split; [reflexivity|]. split.
  - apply (C3_index_out_of_range_raises fs_AB (scrapper_of None files_AB []) (-1)).
    left. reflexivity.
  - apply (C3_index_out_of_range_raises fs_AB (scrapper_of None files_AB []) 2).
    right. simpl. lia.
Defined.

(** C4: when ignore paths are given, the file list is the located files, in
    order, without those whose directory part (os.path.dirname) contains a
    member of the ignore list as a substring; ignoring "data" drops both
    root/data/x.txt and root/metadata/y.txt. *)
Theorem C4_ignore_paths_by_substring fs self path_repo ext ignore_list :
  files_list (update_files_list fs self path_repo ext (Some ignore_list))
    = filter (fun f => negb (ignored ignore_list f))
        (support.get_all_files_from_path fs path_repo ext) /\
  (forall f,
     In f (files_list (update_files_list fs self path_repo ext (Some ignore_list)))
     <-> In f (support.get_all_files_from_path fs path_repo ext) /\
         ~ exists path_to_ignore,
             In path_to_ignore ignore_list /\
             substring_of path_to_ignore (os_path.dirname f)) /\
  support.get_all_files_from_path fs_data "root" None
    = ["root/top.txt"; "root/data/x.txt"; "root/metadata/y.txt"; "root/src/z.txt"] /\
  files_list (update_files_list fs_data (scrapper_of None [] []) "root" None
                (Some ["data"]))
    = ["root/top.txt"; "root/src/z.txt"].
Proof.
  rewrite update_files_list_eq. cbn [files_list set_files_list].
  split; [reflexivity|]. split; [|split; reflexivity].
  intros f. rewrite filter_In, negb_true_iff, <- ignored_spec.
  now destruct (ignored ignore_list f); intuition.
Qed.

(** C5 as the specification words it fails on file names whose last dot is
    preceded by dots only: the last dot of ".gitignore" starts
    ".gitignore" and the last dot of "..cfg" starts ".cfg", yet a filter
    holding exactly that string does not keep the file, and a filter
    holding the empty string keeps both. *)
Lemma C5_counterexample_leading_dots :
  In "root/.gitignore" (located fs_dotfile "root") /\
  In (spec_extension ".gitignore") [".gitignore"] /\
  ~ In "root/.gitignore"
      (support.get_all_files_from_path fs_dotfile "root" (Some [".gitignore"])) /\
  In "root/..cfg" (located fs_dotfile "root") /\
  In (spec_extension "..cfg") [".cfg"] /\
  ~ In "root/..cfg"
      (support.get_all_files_from_path fs_dotfile "root" (Some [".cfg"])) /\
  ~ In (spec_extension "..cfg") [""] /\
  In "root/..cfg" (support.get_all_files_from_path fs_dotfile "root" (Some [""])).
Proof.
  repeat apply conj; try (vm_compute; tauto); vm_compute; not_in_list.
Qed.

(** C5, amended: with an extension filter the result is the located files,
    in order, whose extension as os.path.splitext computes it is an exact
    member of the filter; on a file name that extension is the substring
    from the last dot when a character other than a dot comes before that
    dot, and the empty string otherwise; without a filter every file is
    kept; the filter {".md"} over a.md, b.txt, c.MD keeps a.md only. *)
Theorem C5_extension_filter_by_splitext fs top filter_list :
  support.get_all_files_from_path fs top (Some filter_list)
    = filter (extension_in filter_list) (located fs top) /\
  (forall path name,
     py_str.rfind os_path.sep name = -1 ->
     (extension_in filter_list (os_path.join path name) = true
      <-> In (filename_extension name) filter_list)) /\
  support.get_all_files_from_path fs top None = located fs top /\
  located fs_md "root" = ["root/a.md"; "root/b.txt"; "root/c.MD"] /\
  support.get_all_files_from_path fs_md "root" (Some [".md"]) = ["root/a.md"].
Proof.
  split; [apply get_all_files_filter|].
  split; [|split; [apply get_all_files_no_filter|split; reflexivity]].
  intros path name H. unfold extension_in.
  now rewrite (splitext_join path name H), list_contains_spec.
Qed.

Lemma C5_witness_md :
  py_str.rfind os_path.sep "c.MD" = -1 /\
  (extension_in [".md"] (os_path.join "root" "c.MD") = true
   <-> In (filename_extension "c.MD") [".md"]).
Proof.
  split; [reflexivity|].
  exact (proj1 (proj2 (C5_extension_filter_by_splitext fs_md "root" [".md"]))
           "root" "c.MD" eq_refl).
Defined.

(** C6 as the specification words it fails: with a chunking capability and
    a second file that cannot be read, the rebuild raises and leaves the
    chunks of the first file, which are neither the previous chunk list nor
    an empty one. *)
Lemma C6_counterexample_partial_chunks :
  chunks scrapper_stale = ["stale"] /\
  fst (create_chunk fs_unreadable scrapper_stale) = Raise (IOError "root/f2") /\
  chunks (snd (create_chunk fs_unreadable scrapper_stale)) = ["A"] /\
  chunks (snd (create_chunk fs_unreadable scrapper_stale)) <> chunks scrapper_stale /\
  chunks (snd (create_chunk fs_unreadable scrapper_stale)) <> [].
Proof.
  repeat split; try reflexivity; vm_compute; discriminate.
Qed.

(** C6, amended: when the read of a file fails during a chunk rebuild, the
    rebuild stops there and raises the read error; the file list is
    unchanged, the previous chunk list is discarded, and the chunk list
    holds the fragments of the files before the failing one when a
    chunking capability is set, and is empty when none is. *)
Theorem C6_read_failure_leaves_prefix fs self readable raws f post :
  files_list self = readable ++ f :: post ->
  Forall2 (fun g raw => fs_read fs g = Some raw) readable raws ->
  fs_read fs f = None ->
  create_chunk fs self =
    (Raise (IOError f),
     set_chunks self
       match chunking_function self with
       | Some chunk => flat_map chunk (map py_str.strip raws)
       | None => []
       end).
Proof.
  intros Hf Hr Hfail.
  rewrite create_chunk_eq, Hf, (read_prefix_fails _ _ _ _ _ Hr Hfail).
  now destruct (chunking_function self).
Qed.

Lemma C6_witness_second_file_unreadable :
  create_chunk fs_unreadable (scrapper_of (Some py_str.split) files_AB ["stale"])
    = (Raise (IOError "root/f2"), scrapper_of (Some py_str.split) files_AB ["A"]) /\
  create_chunk fs_unreadable (scrapper_of None files_AB ["stale"])
    = (Raise (IOError "root/f2"), scrapper_of None files_AB []).
Proof.
  split.
  - apply (C6_read_failure_leaves_prefix fs_unreadable
             (scrapper_of (Some py_str.split) files_AB ["stale"])
             ["root/f1"] ["A"] "root/f2" []);
      [reflexivity|repeat constructor|reflexivity].
  - apply (C6_read_failure_leaves_prefix fs_unreadable
             (scrapper_of None files_AB ["stale"])
             ["root/f1"] ["A"] "root/f2" []);
      [reflexivity|repeat constructor|reflexivity].
Defined.





(** C8: a second rescan with the same arguments on the same file system
    returns what the first returned and leaves the file list and the chunk
    list as the first left them. *)
Theorem C8_rescan_idempotent fs self path_repo ext ignore :
  update_files_list_and_create_chunks fs
    (snd (update_files_list_and_create_chunks fs self path_repo ext ignore))
    path_repo ext ignore
  = update_files_list_and_create_chunks fs self path_repo ext ignore.
Proof.
  unfold update_files_list_and_create_chunks.
  rewrite !update_files_list_eq, !create_chunk_eq.
  cbn [files_list chunking_function set_files_list].
  destruct (read_prefix fs _) as [contents failed].
  destruct (chunking_function self) as [chunk|] eqn:Hc.
  - cbn [snd chunking_function set_chunks set_files_list]. now rewrite Hc.
  - destruct failed as [f|];
      cbn [snd chunking_function set_chunks set_files_list]; now rewrite Hc.
Qed.

(** C9: for a valid index of a readable file, get_chunks_from_file returns
    the result of the chunking capability on the stripped content of that
    file when a capability is set, and returns None (no list, no
    exception) when none is set. *)
Theorem C9_chunks_of_one_file fs self idx file_path raw :
  0 <= idx < Z.of_nat (List.length (files_list self)) ->
  nth_error (files_list self) (Z.to_nat idx) = Some file_path ->
  fs_read fs file_path = Some raw ->
  (forall chunk,
     chunking_function self = Some chunk ->
     get_chunks_from_file fs self idx = Return (Some (chunk (py_str.strip raw)))) /\
  (chunking_function self = None ->
   get_chunks_from_file fs self idx = Return None).
Proof.
  intros Hidx Hnth Hread.
  destruct (get_file_content_valid fs self idx Hidx) as [p [N G]].
  rewrite Hnth in N. injection N as <-. rewrite Hread in G.
  unfold get_chunks_from_file. rewrite (check_idx_valid self idx Hidx), G.
  cbn [bind]. split; [intros chunk Hc|intros Hc]; now rewrite Hc.
Qed.

Lemma C9_witness_both_modes :
  get_chunks_from_file fs_xyz (scrapper_of (Some py_str.split) files_AB []) 0
    = Return (Some ["x"; "y"]) /\
  get_chunks_from_file fs_xyz (scrapper_of None files_AB []) 0 = Return None.
Proof.
  assert (Hidx : 0 <= 0 < Z.of_nat (List.length files_AB)) by (simpl; lia).
  split.
  - exact (proj1 (C9_chunks_of_one_file fs_xyz
                    (scrapper_of (Some py_str.split) files_AB [])
                    0 "root/f1" "x y" Hidx eq_refl eq_refl)
             py_str.split eq_refl).
  - exact (proj2 (C9_chunks_of_one_file fs_xyz (scrapper_of None files_AB [])
                    0 "root/f1" "x y" Hidx eq_refl eq_refl)
             eq_refl).
Defined.

(** C10: an extension filter that is present and empty keeps no file, so
    the file list is empty whatever the root and the ignore paths, while
    an absent filter keeps every located file. *)
Theorem C10_empty_filter_keeps_nothing fs self top ignore :
  support.get_all_files_from_path fs top (Some []) = [] /\
  files_list (update_files_list fs self top (Some []) ignore) = [] /\
  support.get_all_files_from_path fs top None = located fs top /\
  support.get_all_files_from_path fs_md "root" (Some []) = [] /\
  support.get_all_files_from_path fs_md "root" None
    = ["root/a.md"; "root/b.txt"; "root/c.MD"].
Proof.
  assert (H : support.get_all_files_from_path fs top (Some []) = []).
  { rewrite get_all_files_filter. unfold extension_in, py_list.contains. simpl.
    induction (located fs top) as [|f l IH]; [reflexivity|exact IH]. }
  split; [exact H|]. split.
  - rewrite update_files_list_eq. cbn [files_list set_files_list]. cbv zeta.
    rewrite H. now destruct ignore.
  - split; [apply get_all_files_no_filter|split; reflexivity].
Qed.

(* ================================================================= *)
(** ** Further properties of the code *)

(** *** Reads *)

Lemma read_prefix_ok_iff fs files :
  snd (read_prefix fs files) = None
  <-> Forall (fun f => fs_read fs f <> None) files.
Proof.
  induction files as [|f files IH]; simpl.
  - split; [constructor|reflexivity].
  - destruct (fs_read fs f) as [text|] eqn:E.
    + destruct (read_prefix fs files) as [contents failed]. simpl in *.
      rewrite IH. split.
      * intros H. constructor; [congruence|exact H].
      * intros H. now inversion H.
    + simpl. split; [discriminate|].
      intros H. inversion H; subst. congruence.
Qed.

Lemma read_prefix_failed fs files f :
  snd (read_prefix fs files) = Some f -> In f files /\ fs_read fs f = None.
Proof.
  induction files as [|g files IH]; simpl; [discriminate|].
  destruct (fs_read fs g) as [text|] eqn:E.
  - destruct (read_prefix fs files) as [contents failed]. simpl in *.
    intros H. destruct (IH H) as [H1 H2]. split; [now right|exact H2].
  - simpl. intros H. injection H as <-. split; [now left|exact E].
Qed.

Lemma read_prefix_nth fs : forall files contents i file_path,
  read_prefix fs files = (contents, None) ->
  nth_error files i = Some file_path ->
  exists raw,
    fs_read fs file_path = Some raw /\
    nth_error contents i = Some (py_str.strip raw).
Proof.
  induction files as [|f files IH]; intros contents i p H N.
  - destruct i; discriminate.
  - simpl in H. destruct (fs_read fs f) as [text|] eqn:E; [|discriminate].
    destruct (read_prefix fs files) as [cs failed] eqn:R.
    injection H as <- ->. destruct i as [|i]; simpl in N.
    + injection N as <-. now exists text.
    + destruct (IH cs i p eq_refl N) as [raw [H1 H2]]. now exists raw.
Qed.

Lemma create_chunk_status fs self :
  fst (create_chunk fs self)
  = read_status (snd (read_prefix fs (files_list self))).
Proof.
  rewrite create_chunk_eq.
  destruct (read_prefix fs (files_list self)) as [contents [f|]];
    now destruct (chunking_function self).
Qed.

Lemma create_chunk_fields fs self :
  files_list (snd (create_chunk fs self)) = files_list self /\
  chunking_function (snd (create_chunk fs self)) = chunking_function self.
Proof.
  rewrite create_chunk_eq.
  destruct (read_prefix fs (files_list self)) as [contents [f|]];
    destruct (chunking_function self) eqn:E; cbn; rewrite ?E; split; reflexivity.
Qed.

(** *** [create_chunk] *)

(** X1: with a chunking function that is either absent or a function that
    returns a list of strings for every content without raising (what the
    type of chunking_function says here), create_chunk returns normally
    exactly when every file of the file list can be read; otherwise the
    exception is the read error of a file of the list that cannot be read.
    Under that condition on the chunking function no IndexError and no
    TypeError comes out of create_chunk. *)
Theorem X1_create_chunk_raises_only_read_errors fs self :
  (fst (create_chunk fs self) = Return tt
   <-> Forall (fun f => fs_read fs f <> None) (files_list self)) /\
  (forall e, fst (create_chunk fs self) = Raise e ->
     exists f, e = IOError f /\ In f (files_list self) /\ fs_read fs f = None).
Proof.
  rewrite create_chunk_status. split.
  - rewrite <- read_prefix_ok_iff.
    destruct (snd (read_prefix fs (files_list self))); simpl;
      split; intros H; try reflexivity; discriminate H.
  - intros e H.
    destruct (snd (read_prefix fs (files_list self))) as [f|] eqn:E;
      simpl in H; [|discriminate H].
    injection H as <-. exists f. split; [reflexivity|].
    now apply read_prefix_failed.
Qed.

(** X2: create_chunk changes neither the file list nor the chunking
    function, whether it returns or raises; what it does and leaves does
    not depend on the chunk list it finds; running it again on the state it
    left repeats the same result. *)
Theorem X2_create_chunk_replaces_chunks fs self old :
  files_list (snd (create_chunk fs self)) = files_list self /\
  chunking_function (snd (create_chunk fs self)) = chunking_function self /\
  create_chunk fs (set_chunks self old) = create_chunk fs self /\
  create_chunk fs (snd (create_chunk fs self)) = create_chunk fs self.
Proof.
  split; [apply create_chunk_fields|]. split; [apply create_chunk_fields|].
  split.
  - now rewrite !create_chunk_eq.
  - rewrite (create_chunk_eq fs (snd (create_chunk fs self))).
    destruct (create_chunk_fields fs self) as [-> ->].
    rewrite create_chunk_eq.
    destruct (read_prefix fs (files_list self)) as [contents [f|]];
      now destruct (chunking_function self).
Qed.

(** *** [update_files_list] and the rescan *)

Lemma filter_all_true {A : Type} (p : A -> bool) (l : list A) :
  (forall x, p x = true) -> filter p l = l.
Proof.
  intros H. induction l as [|x l IH]; simpl; [reflexivity|].
  now rewrite H, IH.
Qed.

Lemma filter_all_false {A : Type} (p : A -> bool) (l : list A) :
  (forall x, p x = false) -> filter p l = [].
Proof.
  intros H. induction l as [|x l IH]; simpl; [reflexivity|].
  now rewrite H.
Qed.

Lemma filter_filter {A : Type} (p q : A -> bool) (l : list A) :
  filter q (filter p l) = filter (fun x => p x && q x) l.
Proof.
  induction l as [|x l IH]; simpl; [reflexivity|].
  destruct (p x); simpl; [destruct (q x)|]; now rewrite IH.
Qed.

(** X3: update_files_list alone leaves the chunk list and the chunking
    function as they were (the chunks are stale until create_chunk runs),
    and the file list it stores does not depend on the one it replaces. *)
Theorem X3_update_files_list_replaces_files fs self other path_repo ext ignore :
  chunks (update_files_list fs self path_repo ext ignore) = chunks self /\
  chunking_function (update_files_list fs self path_repo ext ignore)
    = chunking_function self /\
  files_list (update_files_list fs self path_repo ext ignore)
    = files_list (update_files_list fs other path_repo ext ignore).
Proof.
  rewrite !update_files_list_eq. repeat split.
Qed.

(** X4: the file list is the located files that pass both filters, in the
    order of the walk: the extension filter and the ignore list act as one
    filter, each of them only when it is given. *)
Theorem X4_files_list_is_filtered_walk fs self path_repo ext ignore :
  files_list (update_files_list fs self path_repo ext ignore)
    = filter (selected ext ignore) (located fs path_repo).
Proof.
  rewrite update_files_list_eq. cbn [files_list set_files_list]. cbv zeta.
  unfold selected.
  destruct ext as [filter_list|];
    [rewrite get_all_files_filter|rewrite get_all_files_no_filter];
    destruct ignore as [ignore_list|].
  - apply filter_filter.
  - apply filter_ext. intros f. now rewrite andb_true_r.
  - reflexivity.
  - symmetry. now apply filter_all_true.
Qed.

(** X5: an ignore list that is present and empty ignores nothing: it gives
    the state an absent ignore list gives (unlike an empty extension
    filter, which keeps no file). *)
Theorem X5_empty_ignore_list_ignores_nothing fs self path_repo ext :
  update_files_list fs self path_repo ext (Some [])
    = update_files_list fs self path_repo ext None.
Proof.
  rewrite !update_files_list_eq. cbv zeta. f_equal.
  now apply filter_all_true.
Qed.

Lemma contains_empty s : py_str.contains "" s = true.
Proof. now destruct s. Qed.

(** X6: an ignore list that holds the empty string drops every file, since
    the empty string occurs in every directory path. *)
Theorem X6_empty_ignore_string_drops_all fs self path_repo ext ignore_list :
  In "" ignore_list ->
  files_list (update_files_list fs self path_repo ext (Some ignore_list)) = [].
Proof.
  intros H. rewrite update_files_list_eq. cbn [files_list set_files_list]. cbv zeta.
  apply filter_all_false. intros f. apply negb_false_iff.
  unfold ignored. apply existsb_exists. exists "". split; [exact H|].
  apply contains_empty.
Qed.

Lemma X6_witness_data_and_empty :
  In "" ["data"; ""] /\
  files_list (update_files_list fs_data (scrapper_of None [] []) "root" None
                (Some ["data"; ""])) = [].
Proof.
  assert (H : In "" ["data"; ""]) by (right; left; reflexivity).
  split; [exact H|].
  exact (X6_empty_ignore_string_drops_all fs_data (scrapper_of None [] [])
           "root" None ["data"; ""] H).
Defined.

(** X7: a rescan does not depend on the file list and the chunk list it
    finds: from any state with the same chunking function it gives the
    outcome and the state that the construction of a new scraper gives. *)
Theorem X7_rescan_equals_construction fs self path_repo ext ignore :
  update_files_list_and_create_chunks fs self path_repo ext ignore
    = init fs path_repo ext ignore (chunking_function self).
Proof.
  unfold init, update_files_list_and_create_chunks.
  rewrite !update_files_list_eq, !create_chunk_eq.
  cbn [files_list chunking_function set_files_list].
  destruct (read_prefix fs _) as [contents [f|]];
    destruct (chunking_function self) eqn:E;
    unfold set_chunks, set_files_list; cbn [files_list chunking_function chunks];
    rewrite ?E; reflexivity.
Qed.

(** X8: when the root is not a directory the walk yields nothing and no
    error: the construction returns normally with an empty file list, and
    the chunk list is empty with a chunking function and holds the single
    empty string without one. *)
Theorem X8_root_not_a_directory fs path_repo ext ignore chunk :
  fs_dir fs path_repo = None ->
  init fs path_repo ext ignore chunk =
    (Return tt,
     {| chunking_function := chunk;
        files_list := [];
        chunks := match chunk with Some _ => [] | None => [""] end |}).
Proof.
  intros H.
  assert (L : located fs path_repo = [])
    by (unfold located, os.walk; now rewrite H).
  unfold init, update_files_list_and_create_chunks.
  assert (U : update_files_list fs
                {| chunking_function := chunk; files_list := []; chunks := [] |}
                path_repo ext ignore
              = {| chunking_function := chunk; files_list := []; chunks := [] |}).
  { pose proof (X := update_files_list_eq fs
                  {| chunking_function := chunk; files_list := []; chunks := [] |}
                  path_repo ext ignore).
    rewrite X. unfold set_files_list. cbn [chunking_function chunks]. f_equal.
    cbv zeta.
    destruct ext; [rewrite get_all_files_filter|rewrite get_all_files_no_filter];
      rewrite L; now destruct ignore. }
  rewrite U, create_chunk_eq. now destruct chunk.
Qed.

Lemma X8_witness_no_directory :
  fs_dir fs_empty "nowhere" = None /\
  init fs_empty "nowhere" (Some [".md"]) None None =
    (Return tt, scrapper_of None [] [""]).
Proof.
  split; [reflexivity|].
  exact (X8_root_not_a_directory fs_empty "nowhere" (Some [".md"]) None None eq_refl).
Defined.

(** *** The directory part of a located file *)

Lemma take_append pre s n :
  py_str.take (String.length pre + n) (pre ++ s) = (pre ++ py_str.take n s)%string.
Proof. induction pre as [|a pre IH]; simpl; [reflexivity|now rewrite IH]. Qed.

Lemma all_char_append_false c path t :
  path <> "" -> py_str.endswith_char c path = false ->
  py_str.all_char c (path ++ t) = false.
Proof.
  induction path as [|a path IH]; intros Hne He; [congruence|].
  cbn [String.append py_str.all_char]. destruct path as [|b path].
  - simpl in He. now rewrite He.
  - rewrite IH; [apply andb_false_r|discriminate|exact He].
Qed.

Lemma rstrip_append_sep path :
  path <> "" -> py_str.endswith_char os_path.sep path = false ->
  py_str.rstrip_by (fun a => Ascii.eqb a os_path.sep) (path ++ String os_path.sep "")
  = path.
Proof.
  induction path as [|a path IH]; intros Hne He; [congruence|].
  destruct path as [|b path].
  - simpl in He. simpl. now rewrite He.
  - change (py_str.endswith_char os_path.sep (String b path) = false) in He.
    remember (String b path) as t eqn:Ht.
    cbn [String.append py_str.rstrip_by].
    rewrite IH; [now subst t|subst t; discriminate|exact He].
Qed.

Lemma dirname_join path name :
  py_str.endswith_char os_path.sep path = false ->
  py_str.rfind os_path.sep name = -1 ->
  os_path.dirname (os_path.join path name) = path.
Proof.
  intros He Hn. unfold os_path.join. rewrite (no_sep_not_absolute _ Hn), He.
  destruct path as [|a path].
  - cbn [String.eqb orb String.append]. unfold os_path.dirname. rewrite Hn.
    reflexivity.
  - cbn [String.eqb orb]. unfold os_path.dirname. cbv zeta.
    remember (String a path) as p eqn:Hp.
    assert (Hne : p <> "") by (subst p; discriminate).
    assert (Hi : py_str.rfind os_path.sep (p ++ String os_path.sep name) + 1
                 = Z.of_nat (String.length p + 1)).
    { rewrite rfind_append. cbn [py_str.rfind]. rewrite Hn.
      change (0 <=? -1) with false. cbv iota.
      rewrite Ascii.eqb_refl. change (0 <=? 0) with true. cbv iota.
      unfold py_str.len. lia. }
    rewrite Hi. unfold py_str.slice_to.
    replace (Z.of_nat (String.length p + 1) <? 0) with false
      by (symmetry; apply Z.ltb_ge; lia).
    rewrite Nat2Z.id, take_append. cbn [py_str.take].
    rewrite (all_char_append_false _ _ _ Hne He).
    replace (String.eqb (p ++ String os_path.sep "") "") with false
      by (subst p; reflexivity).
    cbn [negb andb]. now apply rstrip_append_sep.
Qed.

(** X9: for a file name without separator in a directory whose path does
    not end with a separator (every directory the walk reports below the
    root is such), the directory part that is tested against the ignore
    list is the directory path itself: the file is ignored exactly when a
    member of the ignore list occurs in that path. *)
Theorem X9_ignore_tests_the_walk_directory ignore_list path name :
  py_str.endswith_char os_path.sep path = false ->
  py_str.rfind os_path.sep name = -1 ->
  os_path.dirname (os_path.join path name) = path /\
  ignored ignore_list (os_path.join path name)
    = existsb (fun path_to_ignore => py_str.contains path_to_ignore path)
        ignore_list.
Proof.
  intros He Hn. unfold ignored. rewrite (dirname_join path name He Hn).
  split; reflexivity.
Qed.

Lemma X9_witness_metadata :
  py_str.endswith_char os_path.sep "root/metadata" = false /\
  py_str.rfind os_path.sep "y.txt" = -1 /\
  os_path.dirname (os_path.join "root/metadata" "y.txt") = "root/metadata" /\
  ignored ["data"] (os_path.join "root/metadata" "y.txt") = true.
Proof.
  split; [reflexivity|]. split; [reflexivity|].
  exact (X9_ignore_tests_the_walk_directory ["data"] "root/metadata" "y.txt"
           eq_refl eq_refl).
Defined.

(** X10: a file whose name holds no dot has the empty extension: with an
    extension filter it is kept exactly when the filter holds the empty
    string. *)
Theorem X10_name_without_dot filter_list path name :
  py_str.rfind os_path.sep name = -1 ->
  py_str.rfind os_path.extsep name = -1 ->
  snd (os_path.splitext (os_path.join path name)) = "" /\
  extension_in filter_list (os_path.join path name)
    = py_list.contains "" filter_list.
Proof.
  intros Hs Hd.
  assert (H : snd (os_path.splitext (os_path.join path name)) = "").
  { rewrite (splitext_join path name Hs). unfold filename_extension.
    now rewrite Hd. }
  unfold extension_in. now rewrite H.
Qed.

Lemma X10_witness_makefile :
  py_str.rfind os_path.sep "Makefile" = -1 /\
  py_str.rfind os_path.extsep "Makefile" = -1 /\
  extension_in [".md"; ""] (os_path.join "root" "Makefile") = true /\
  extension_in [".md"] (os_path.join "root" "Makefile") = false.
Proof.
  split; [reflexivity|]. split; [reflexivity|]. split.
  - exact (proj2 (X10_name_without_dot [".md"; ""] "root" "Makefile"
                    eq_refl eq_refl)).
  - exact (proj2 (X10_name_without_dot [".md"] "root" "Makefile"
                    eq_refl eq_refl)).
Defined.

(** *** The chunk list and the views of one file *)

Lemma per_file_views fs chunk : forall rest pre self,
  chunking_function self = Some chunk ->
  files_list self = pre ++ rest ->
  snd (read_prefix fs rest) = None ->
  flat_map (fun idx => fragments_of (get_chunks_from_file fs self idx))
    (map Z.of_nat (seq (List.length pre) (List.length rest)))
  = flat_map chunk (fst (read_prefix fs rest)).
Proof.
  induction rest as [|a rest IH]; intros pre self Hc Hf Hr; [reflexivity|].
  cbn [List.length seq map flat_map].
  rewrite (get_chunks_from_file_at fs _ _ _ _ Hf), Hc.
  cbn [read_prefix] in *. destruct (fs_read fs a) as [text|]; [|discriminate Hr].
  specialize (IH (pre ++ [a]) self Hc).
  rewrite length_app, Nat.add_1_r, <- app_assoc in IH.
  destruct (read_prefix fs rest) as [contents failed]. cbn [fst snd] in *.
  cbn [fragments_of flat_map]. now rewrite (IH Hf Hr).
Qed.

(** X11: after a rebuild with a chunking function that returned normally,
    the chunk list is the concatenation, over the indices of the file list
    in order, of what get_chunks_from_file returns for each index. *)
Theorem X11_chunks_are_the_per_file_views fs self chunk :
  chunking_function self = Some chunk ->
  fst (create_chunk fs self) = Return tt ->
  chunks (snd (create_chunk fs self))
  = flat_map
      (fun idx =>
         fragments_of (get_chunks_from_file fs (snd (create_chunk fs self)) idx))
      (py_list.range (List.length (files_list (snd (create_chunk fs self))))).
Proof.
  intros Hc Hok.
  destruct (create_chunk_fields fs self) as [Hf Hcf].
  rewrite create_chunk_status in Hok.
  destruct (snd (read_prefix fs (files_list self))) as [f|] eqn:Hr;
    [discriminate Hok|].
  assert (Hc' : chunking_function (snd (create_chunk fs self)) = Some chunk)
    by congruence.
  pose proof (per_file_views fs chunk (files_list self) []
                (snd (create_chunk fs self)) Hc' Hf Hr) as V.
  cbn [List.length] in V. rewrite Hf. unfold py_list.range. rewrite V.
  rewrite create_chunk_eq, Hc.
  now destruct (read_prefix fs (files_list self)).
Qed.

Lemma X11_witness_x_y_z :
  fst (create_chunk fs_xyz (scrapper_of (Some py_str.split) files_AB []))
    = Return tt /\
  ["x"; "y"; "z"]
  = flat_map
      (fun idx =>
         fragments_of
           (get_chunks_from_file fs_xyz
              (snd (create_chunk fs_xyz (scrapper_of (Some py_str.split) files_AB [])))
              idx))
      [0; 1].
Proof.
  split; [reflexivity|].
  exact (X11_chunks_are_the_per_file_views fs_xyz
           (scrapper_of (Some py_str.split) files_AB []) py_str.split
           eq_refl eq_refl).
Defined.

Lemma joined_contains : forall contents i content,
  nth_error contents i = Some content ->
  substring_of (content ++ blank_line) (blank_line_joined contents).
Proof.
  induction contents as [|c contents IH]; intros i content H.
  - destruct i; discriminate.
  - cbn [blank_line_joined fold_right]. fold (blank_line_joined contents).
    destruct i as [|i]; simpl in H.
    + injection H as <-. exists "", (blank_line_joined contents).
      now rewrite append_assoc.
    + destruct (IH i content H) as [pre [post E]].
      exists (c ++ blank_line ++ pre)%string, post.
      rewrite E. now rewrite !append_assoc.
Qed.

Lemma get_file_content_returns fs self idx content :
  get_file_content fs self idx = Return content ->
  exists file_path raw,
    nth_error (files_list self) (Z.to_nat idx) = Some file_path /\
    fs_read fs file_path = Some raw /\
    content = py_str.strip raw.
Proof.
  intros H.
  assert (Hv : valid_idx self idx).
  { destruct (Z_lt_dec idx 0) as [L|L];
      [|destruct (Z_le_dec (Z.of_nat (List.length (files_list self))) idx) as [U|U]];
      [| |unfold valid_idx; lia];
      unfold get_file_content in H;
      rewrite check_idx_invalid in H by (unfold valid_idx; lia);
      discriminate H. }
  destruct (get_file_content_valid fs self idx Hv) as [p [N G]].
  rewrite G in H. destruct (fs_read fs p) as [raw|] eqn:E; [|discriminate H].
  injection H as <-. now exists p, raw.
Qed.

(** X12: after a rebuild without chunking function that returned normally,
    the chunk list holds one string, and every content that
    get_file_content returns occurs in it followed by a blank line: no
    file of the list is left out of the merged chunk. *)
Theorem X12_merged_chunk_holds_every_content fs self idx content :
  chunking_function self = None ->
  fst (create_chunk fs self) = Return tt ->
  get_file_content fs self idx = Return content ->
  exists merged,
    chunks (snd (create_chunk fs self)) = [merged] /\
    substring_of (content ++ blank_line) merged.
Proof.
  intros Hc Hok Hg.
  rewrite create_chunk_status in Hok. rewrite create_chunk_eq, Hc.
  destruct (read_prefix fs (files_list self)) as [contents [f|]] eqn:Hr;
    [discriminate Hok|].
  exists (blank_line_joined contents). split; [reflexivity|].
  destruct (get_file_content_returns fs self idx content Hg) as [p [raw [N [E ->]]]].
  destruct (read_prefix_nth fs _ _ _ _ Hr N) as [raw' [E' N']].
  rewrite E in E'. injection E' as <-.
  exact (joined_contains _ _ _ N').
Qed.

Lemma X12_witness_second_file :
  fst (create_chunk fs_AB (scrapper_of None files_AB [])) = Return tt /\
  get_file_content fs_AB (scrapper_of None files_AB []) 1 = Return "B" /\
  exists merged,
    chunks (snd (create_chunk fs_AB (scrapper_of None files_AB []))) = [merged] /\
    substring_of ("B" ++ blank_line) merged.
Proof.
  split; [reflexivity|]. split; [reflexivity|].
  exact (X12_merged_chunk_holds_every_content fs_AB (scrapper_of None files_AB [])
           1 "B" eq_refl eq_refl eq_refl).
Defined.

(** *** Files that hold whitespace only *)

Lemma rstrip_all ws s : all_in ws s = true -> py_str.rstrip_by ws s = "".
Proof.
  induction s as [|a s IH]; simpl; [reflexivity|].
  intros H. apply andb_true_iff in H. destruct H as [H1 H2].
  now rewrite (IH H2), H1.
Qed.

Lemma all_in_append ws s t :
  all_in ws s = true -> all_in ws t = true -> all_in ws (s ++ t) = true.
Proof.
  intros Hs Ht. induction s as [|a s IH]; simpl in *; [exact Ht|].
  apply andb_true_iff in Hs. destruct Hs as [H1 H2]. now rewrite H1, IH.
Qed.

Lemma strip_empty_iff raw :
  py_str.strip raw = "" <-> all_in py_str.isspace raw = true.
Proof.
  split.
  - intros H. destruct (strip_spec raw) as [pre [post [E [H1 [H2 _]]]]].
    rewrite H in E. rewrite E. now apply all_in_append.
  - intros H. unfold py_str.strip. now rewrite (rstrip_all _ _ H).
Qed.

(** X13: for a valid index of a readable file, get_file_content returns
    the empty string exactly when the file holds whitespace only (an empty
    file included). *)
Theorem X13_blank_file_gives_empty_content fs self idx file_path raw :
  0 <= idx < Z.of_nat (List.length (files_list self)) ->
  nth_error (files_list self) (Z.to_nat idx) = Some file_path ->
  fs_read fs file_path = Some raw ->
  (get_file_content fs self idx = Return "" <-> all_in py_str.isspace raw = true).
Proof.
  intros Hidx Hnth Hread.
  destruct (get_file_content_valid fs self idx Hidx) as [p [N G]].
  rewrite Hnth in N. injection N as <-. rewrite Hread in G. rewrite G.
  rewrite <- strip_empty_iff. split; [intros H; now injection H|now intros ->].
Qed.

Lemma X13_witness_blank_files :
  get_file_content fs_blank (scrapper_of None files_AB []) 0 = Return "" /\
  get_file_content fs_blank (scrapper_of None files_AB []) 1 = Return "".
Proof.
  assert (H0 : 0 <= 0 < Z.of_nat (List.length files_AB)) by (simpl; lia).
  assert (H1 : 0 <= 1 < Z.of_nat (List.length files_AB)) by (simpl; lia).
  split.
  - exact (proj2 (X13_blank_file_gives_empty_content fs_blank
                    (scrapper_of None files_AB []) 0 "root/f1" (String LF "  ")
                    H0 eq_refl eq_refl) eq_refl).
  - exact (proj2 (X13_blank_file_gives_empty_content fs_blank
                    (scrapper_of None files_AB []) 1 "root/f2" ""
                    H1 eq_refl eq_refl) eq_refl).
Defined.

(** *** Printing *)

Lemma print_file_valid fs self idx file_path extended_output :
  valid_idx self idx ->
  nth_error (files_list self) (Z.to_nat idx) = Some file_path ->
  print_file fs self idx extended_output =
    match fs_read fs file_path with
    | Some raw =>
        (Return tt, file_output extended_output idx file_path (py_str.strip raw))
    | None =>
        (Raise (IOError file_path), failed_output extended_output idx file_path)
    end.
Proof.
  intros Hidx Hnth.
  destruct (get_file_content_valid fs self idx Hidx) as [p [N G]].
  rewrite Hnth in N. injection N as <-.
  destruct (getitem_valid (files_list self) idx Hidx) as [a [Ha Na]].
  rewrite Hnth in Na. injection Na as <-.
  unfold print_file. rewrite (check_idx_valid self idx Hidx), Ha, G.
  destruct extended_output; now destruct (fs_read fs file_path).
Qed.

Lemma print_file_at fs self pre a rest extended_output :
  files_list self = pre ++ a :: rest ->
  print_file fs self (Z.of_nat (List.length pre)) extended_output =
    match fs_read fs a with
    | Some raw =>
        (Return tt,
         file_output extended_output (Z.of_nat (List.length pre)) a (py_str.strip raw))
    | None =>
        (Raise (IOError a),
         failed_output extended_output (Z.of_nat (List.length pre)) a)
    end.
Proof.
  intros H. apply print_file_valid; [exact (valid_idx_middle _ _ _ _ H)|].
  rewrite H, Nat2Z.id, nth_error_app2, Nat.sub_diag by lia. reflexivity.
Qed.

Lemma print_loop_ok fs self extended_output : forall rest raws pre out,
  files_list self = pre ++ rest ->
  Forall2 (fun f raw => fs_read fs f = Some raw) rest raws ->
  for_each
    (combine (map Z.of_nat (seq (List.length pre) (List.length rest))) rest)
    (fun (entry : Z * string) (out : list printed) =>
       let '(idx, _) := entry in
       let '(result, written) := print_file fs self idx extended_output in
       (result, out ++ written))
    out
  = (Return tt, out ++ files_output extended_output (List.length pre) rest raws).
Proof.
  induction rest as [|a rest IH]; intros raws pre out Hf Hr.
  - inversion Hr. simpl. now rewrite app_nil_r.
  - inversion Hr as [|? raw ? raws' Ha Hr' E1 E2]; subst.
    cbn [List.length seq map combine for_each files_output].
    rewrite (print_file_at fs self pre a rest extended_output Hf), Ha.
    specialize (IH raws' (pre ++ [a])).
    rewrite length_app, Nat.add_1_r, <- app_assoc in IH.
    rewrite (IH _ Hf Hr'). now rewrite <- app_assoc.
Qed.

Lemma print_loop_fails fs self extended_output f post :
  fs_read fs f = None ->
  forall readable raws pre out,
  files_list self = pre ++ readable ++ f :: post ->
  Forall2 (fun g raw => fs_read fs g = Some raw) readable raws ->
  for_each
    (combine
       (map Z.of_nat
          (seq (List.length pre) (List.length (readable ++ f :: post))))
       (readable ++ f :: post))
    (fun (entry : Z * string) (out : list printed) =>
       let '(idx, _) := entry in
       let '(result, written) := print_file fs self idx extended_output in
       (result, out ++ written))
    out
  = (Raise (IOError f),
     out ++ files_output extended_output (List.length pre) readable raws
         ++ failed_output extended_output
              (Z.of_nat (List.length pre + List.length readable)) f).
Proof.
  intros Hfail.
  induction readable as [|a readable IH]; intros raws pre out Hf Hr.
  - inversion Hr. cbn [app List.length seq map combine for_each files_output].
    cbn [app] in Hf.
    rewrite (print_file_at fs self pre f post extended_output Hf), Hfail.
    now rewrite Nat.add_0_r.
  - inversion Hr as [|? raw ? raws' Ha Hr' E1 E2]; subst.
    cbn [app List.length seq map combine for_each files_output].
    cbn [app] in Hf.
    rewrite (print_file_at fs self pre a _ extended_output Hf), Ha.
    specialize (IH raws' (pre ++ [a])).
    rewrite length_app, Nat.add_1_r, <- app_assoc in IH.
    rewrite (IH _ Hf Hr'). cbn [List.length].
    rewrite <- !app_assoc. now rewrite Nat.add_succ_r.
Qed.

Lemma files_output_plain : forall files raws start,
  List.length files = List.length raws ->
  files_output false start files raws
  = map (fun raw => Text (py_str.strip raw)) raws.
Proof.
  induction files as [|f files IH]; intros [|raw raws] start H;
    try discriminate H; [reflexivity|].
  simpl. f_equal. apply IH. now injection H.
Qed.

(** X14: for a valid index, print_file writes the stripped content of the
    file, framed by the banner, the header with the index and the path,
    and the closing banner in extended mode; when the read fails it
    raises the read error, after having written the banner and the header
    in extended mode and nothing in plain mode. *)
Theorem X14_print_file_output fs self idx file_path extended_output :
  0 <= idx < Z.of_nat (List.length (files_list self)) ->
  nth_error (files_list self) (Z.to_nat idx) = Some file_path ->
  print_file fs self idx extended_output =
    match fs_read fs file_path with
    | Some raw =>
        (Return tt,
         if extended_output
         then [Banner; FileHeader idx file_path; Text (py_str.strip raw); Banner]
         else [Text (py_str.strip raw)])
    | None =>
        (Raise (IOError file_path),
         if extended_output then [Banner; FileHeader idx file_path] else [])
    end.
Proof.
  intros Hidx Hnth. exact (print_file_valid fs self idx file_path _ Hidx Hnth).
Qed.

Lemma X14_witness_extended_read_failure :
  print_file fs_unreadable (scrapper_of None files_AB []) 1 true
    = (Raise (IOError "root/f2"), [Banner; FileHeader 1 "root/f2"]) /\
  print_file fs_unreadable (scrapper_of None files_AB []) 0 true
    = (Return tt, [Banner; FileHeader 0 "root/f1"; Text "A"; Banner]).
Proof.
  assert (H0 : 0 <= 0 < Z.of_nat (List.length files_AB)) by (simpl; lia).
  assert (H1 : 0 <= 1 < Z.of_nat (List.length files_AB)) by (simpl; lia).
  split.
  - exact (X14_print_file_output fs_unreadable (scrapper_of None files_AB [])
             1 "root/f2" true H1 eq_refl).
  - exact (X14_print_file_output fs_unreadable (scrapper_of None files_AB [])
             0 "root/f1" true H0 eq_refl).
Defined.

(** X15: when every file of the list can be read, print_all_files returns
    normally and writes the output of each file in the order of the file
    list, the header of a file carrying its index; in plain mode that is
    the stripped contents, one after the other. *)
Theorem X15_print_all_files_output fs self raws extended_output :
  Forall2 (fun f raw => fs_read fs f = Some raw) (files_list self) raws ->
  print_all_files fs self extended_output
    = (Return tt, files_output extended_output 0 (files_list self) raws) /\
  print_all_files fs self false
    = (Return tt, map (fun raw => Text (py_str.strip raw)) raws).
Proof.
  intros Hr.
  assert (H : forall ext,
             print_all_files fs self ext
             = (Return tt, files_output ext 0 (files_list self) raws)).
  { intros ext. unfold print_all_files, py_enumerate, py_list.range.
    exact (print_loop_ok fs self ext (files_list self) raws [] [] eq_refl Hr). }
  split; [apply H|]. rewrite H.
  now rewrite (files_output_plain _ _ _ (Forall2_length Hr)).
Qed.

Lemma X15_witness_two_files :
  print_all_files fs_AB (scrapper_of None files_AB []) true
    = (Return tt,
       [Banner; FileHeader 0 "root/f1"; Text "A"; Banner;
        Banner; FileHeader 1 "root/f2"; Text "B"; Banner]) /\
  print_all_files fs_AB (scrapper_of None files_AB []) false
    = (Return tt, [Text "A"; Text "B"]).
Proof.
  assert (H : Forall2 (fun f raw => fs_read fs_AB f = Some raw) files_AB
                [String LF " A  "; String "B" (String LF "")])
    by (repeat constructor).
  split.
  - exact (proj1 (X15_print_all_files_output fs_AB (scrapper_of None files_AB [])
                    _ true H)).
  - exact (proj2 (X15_print_all_files_output fs_AB (scrapper_of None files_AB [])
                    _ true H)).
Defined.

(** X16: when a file of the list cannot be read, print_all_files raises the
    read error of the first such file; the output of the files before it
    has been written, followed in extended mode by the banner and the
    header of the failing file, and nothing of the files after it. *)
Theorem X16_print_all_files_stops_at_read_failure
    fs self readable raws f post extended_output :
  files_list self = readable ++ f :: post ->
  Forall2 (fun g raw => fs_read fs g = Some raw) readable raws ->
  fs_read fs f = None ->
  print_all_files fs self extended_output
    = (Raise (IOError f),
       files_output extended_output 0 readable raws
       ++ (if extended_output
           then [Banner; FileHeader (Z.of_nat (List.length readable)) f]
           else [])).
Proof.
  intros Hf Hr Hfail. unfold print_all_files, py_enumerate, py_list.range.
  rewrite Hf.
  exact (print_loop_fails fs self extended_output f post Hfail readable raws
           [] [] Hf Hr).
Qed.

Lemma X16_witness_second_file_unreadable :
  print_all_files fs_unreadable (scrapper_of None files_AB []) true
    = (Raise (IOError "root/f2"),
       [Banner; FileHeader 0 "root/f1"; Text "A"; Banner;
        Banner; FileHeader 1 "root/f2"]) /\
  print_all_files fs_unreadable (scrapper_of None files_AB []) false
    = (Raise (IOError "root/f2"), [Text "A"]).
Proof.
  split.
  - apply (X16_print_all_files_stops_at_read_failure fs_unreadable
             (scrapper_of None files_AB []) ["root/f1"] ["A"] "root/f2" [] true);
      [reflexivity|repeat constructor|reflexivity].
  - apply (X16_print_all_files_stops_at_read_failure fs_unreadable
             (scrapper_of None files_AB []) ["root/f1"] ["A"] "root/f2" [] false);
      [reflexivity|repeat constructor|reflexivity].
Defined.
